(** * File upload and text extraction service ([backend/main.py])

    A shallow embedding of the three functions of the service,
    [extract_text_from_file], [upload_file] and [get_extracted_text],
    over an explicit world: the storage directory, the in-memory
    [_upload_store], the handles the extractor holds open and the
    lines it printed.

    Conventions.
    - A Python [str] is represented by its UTF-8 encoding, a Rocq
      [string] of 8-bit characters; [bytes] are Rocq strings as well.
      Splitting at ['.'] and translating newlines act on ASCII
      characters only, so they commute with the encoding.
    - Whatever the process does not decide itself is read from an
      [Env]: the value of [uuid.uuid4()], the faults of the disk, and
      the order in which the set [ALLOWED_EXTENSIONS] is iterated.
    - PyMuPDF ([fitz]) and the Unicode table behind [str.lower] are not
      part of the repository: both are variables of the section. *)

From Stdlib Require Import String Ascii List.
From stdpp Require Import gmap strings list fin_maps.
Import ListNotations.

Local Open Scope string_scope.

Abbreviation str := string.
Abbreviation bytes := string.

(** ** Python string primitives *)

Module Py.

Definition DOT : ascii := ".".
Definition LF : ascii := "010".
Definition CR : ascii := "013".

(** [s.split(sep)] for a one-character separator: never empty. *)
Fixpoint split (sep : ascii) (s : str) : list str :=
  match s with
  | EmptyString => [EmptyString]
  | String c s' =>
      if Ascii.eqb c sep then EmptyString :: split sep s'
      else match split sep s' with
           | [] => [String c EmptyString]
           | h :: t => String c h :: t
           end
  end.

(** [l[-1]] on the (non-empty) result of [split]. *)
Definition last_item (l : list str) : str := List.last l EmptyString.

(** Truth value of a string: only the empty string is false. *)
Definition truthy (s : str) : bool :=
  match s with
  | EmptyString => false
  | String _ _ => true
  end.

(** [sep.join(l)]. *)
Fixpoint join (sep : str) (l : list str) : str :=
  match l with
  | [] => EmptyString
  | [x] => x
  | x :: rest => x +:+ sep +:+ join sep rest
  end.

Definition in_range (lo hi : N) (c : ascii) : bool :=
  (lo <=? N_of_ascii c)%N && (N_of_ascii c <=? hi)%N.

Definition map_chars (f : ascii -> ascii) : str -> str :=
  fix go s :=
    match s with
    | EmptyString => EmptyString
    | String c s' => String (f c) (go s')
    end.

(** [str.upper] and [str.lower] on ASCII text. *)
Definition upper_char (c : ascii) : ascii :=
  if in_range 97 122 c then ascii_of_N (N_of_ascii c - 32) else c.
Definition lower_char (c : ascii) : ascii :=
  if in_range 65 90 c then ascii_of_N (N_of_ascii c + 32) else c.
Definition ascii_upper : str -> str := map_chars upper_char.
Definition ascii_lower : str -> str := map_chars lower_char.

Definition contains (c : ascii) : str -> bool :=
  fix go s :=
    match s with
    | EmptyString => false
    | String d s' => Ascii.eqb d c || go s'
    end.

End Py.

(** ** UTF-8 and text-mode reading *)

Module Utf8.

Definition cont (c : ascii) : bool := Py.in_range 128 191 c.

(** Second byte of a three-byte sequence: no overlong form (lead E0),
    no surrogate (lead ED). *)
Definition second3 (b0 b1 : ascii) : bool :=
  if (N_of_ascii b0 =? 224)%N then Py.in_range 160 191 b1
  else if (N_of_ascii b0 =? 237)%N then Py.in_range 128 159 b1
  else cont b1.

(** Second byte of a four-byte sequence: no overlong form (lead F0),
    nothing above U+10FFFF (lead F4). *)
Definition second4 (b0 b1 : ascii) : bool :=
  if (N_of_ascii b0 =? 240)%N then Py.in_range 144 191 b1
  else if (N_of_ascii b0 =? 244)%N then Py.in_range 128 143 b1
  else cont b1.

(** The strict decoder of [encoding="utf-8"] accepts exactly these. *)
Fixpoint valid (s : bytes) : bool :=
  match s with
  | EmptyString => true
  | String b0 s1 =>
      if Py.in_range 0 127 b0 then valid s1
      else if Py.in_range 194 223 b0 then
        match s1 with
        | String b1 s2 => cont b1 && valid s2
        | _ => false
        end
      else if Py.in_range 224 239 b0 then
        match s1 with
        | String b1 (String b2 s3) => second3 b0 b1 && cont b2 && valid s3
        | _ => false
        end
      else if Py.in_range 240 244 b0 then
        match s1 with
        | String b1 (String b2 (String b3 s4)) =>
            second4 b0 b1 && cont b2 && cont b3 && valid s4
        | _ => false
        end
      else false
  end.

(** [b.decode("utf-8")]: a [str] is represented by its encoding, so a
    successful decoding returns the bytes themselves. *)
Definition decode (b : bytes) : option str :=
  if valid b then Some b else None.

End Utf8.

(** Universal newlines of a file opened with [open(path, "r")]
    ([newline=None]): on reading, each ["\r\n"] and each remaining
    ["\r"] becomes ["\n"]. *)
Fixpoint universal_newlines (s : str) : str :=
  match s with
  | EmptyString => EmptyString
  | String c s' =>
      if Ascii.eqb c Py.CR then
        String Py.LF
          match s' with
          | String c' s'' =>
              if Ascii.eqb c' Py.LF then universal_newlines s''
              else universal_newlines s'
          | EmptyString => EmptyString
          end
      else String c (universal_newlines s')
  end.

(** ** Exceptions and outcomes *)

(** The exceptions other than [HTTPException] that the handlers meet. *)
Inductive pyexn : Type :=
| FileNotFoundError
| UnicodeDecodeError
| ValueError (msg : str)
| OSError (msg : str)
| LibraryError (msg : str).

(** What a library call does: return a value or raise. *)
Inductive raising (A : Type) : Type :=
| Ok (a : A)
| Err (e : pyexn).
Arguments Ok {A} a.
Arguments Err {A} e.

(** What leaves a handler: [HTTPException(status_code, detail)], or an
    exception nobody caught. *)
Inductive raised : Type :=
| HTTPException (status_code : nat) (detail : str)
| Uncaught (e : pyexn).

Inductive outcome (A : Type) : Type :=
| Returned (a : A)
| Raised (e : raised).
Arguments Returned {A} a.
Arguments Raised {A} e.

Definition HTTP_200_OK : nat := 200.
Definition HTTP_201_CREATED : nat := 201.
Definition HTTP_400_BAD_REQUEST : nat := 400.
Definition HTTP_404_NOT_FOUND : nat := 404.
Definition HTTP_500_INTERNAL_SERVER_ERROR : nat := 500.

(** Status line of the response the framework sends: the status of the
    route on success, the exception's own status for an
    [HTTPException], 500 for anything uncaught. *)
Definition status_of {A} (route_status : nat) (o : outcome A) : nat :=
  match o with
  | Returned _ => route_status
  | Raised (HTTPException sc _) => sc
  | Raised (Uncaught _) => HTTP_500_INTERNAL_SERVER_ERROR
  end.

(** ** The world *)

(** One value of [_upload_store]: the dict with keys ["filename"],
    ["filepath"], ["extension"], ["text"]. *)
Module Entry.
Record t : Type := mk {
  filename : option str;
  filepath : str;
  extension : str;
  text : str
}.
End Entry.

Record World : Type := mkWorld {
  storage : gmap string bytes;            (* files under STORAGE_DIR, by path *)
  _upload_store : gmap string Entry.t;    (* the in-memory store *)
  open_handles : nat;                     (* documents and files held open *)
  printed : list (str * pyexn)            (* arguments of each [print] *)
}.

Definition set_storage (w : World) (fs : gmap string bytes) : World :=
  mkWorld fs (_upload_store w) (open_handles w) (printed w).
Definition set_upload_store (w : World) (m : gmap string Entry.t) : World :=
  mkWorld (storage w) m (open_handles w) (printed w).
Definition acquire (w : World) : World :=
  mkWorld (storage w) (_upload_store w) (S (open_handles w)) (printed w).
Definition release (w : World) : World :=
  mkWorld (storage w) (_upload_store w) (Nat.pred (open_handles w)) (printed w).
Definition print (w : World) (file_path : str) (e : pyexn) : World :=
  mkWorld (storage w) (_upload_store w) (open_handles w)
          (printed w ++ [(file_path, e)]).

(** The [UploadFile] of one request. *)
Record UploadFile : Type := mkUploadFile {
  filename : option str;
  file : bytes;
  closed : bool
}.

Definition close (f : UploadFile) : UploadFile :=
  mkUploadFile (filename f) (file f) true.

(** How writing the upload to disk can go wrong: [open(file_path, "wb")]
    raises and nothing is created, or [shutil.copyfileobj] raises after
    [written] reached the file.  [msg] is [str(e)]. *)
Inductive WriteFault : Type :=
| OpenFails (msg : str)
| CopyFails (written : bytes) (msg : str).

(** What one request reads from outside the program. *)
Record Env : Type := mkEnv {
  uuid4 : str;                       (* str(uuid.uuid4()) *)
  set_order : list str;              (* iteration order of ALLOWED_EXTENSIONS *)
  write_fault : option WriteFault;
  remove_fault : option str          (* os.remove raises OSError(msg) *)
}.

(** ** Configuration *)

Definition STORAGE_DIR : str := "backend/storage".
Definition ALLOWED_EXTENSIONS : gset string := {[ "pdf"; "txt" ]}.

(** [os.path.join(a, b)] for a relative [b]. *)
Definition path_join (a b : str) : str := a +:+ "/" +:+ b.

(** ** Sample instances of what the section abstracts *)

(** A stand-in for PyMuPDF on three inputs: a document of two pages, an
    encrypted document (it opens, and loading its first page raises),
    and anything else, which is not a document. *)
Definition sample_fitz (content : bytes) : raising (list (raising str)) :=
  if String.eqb content "%PDF two pages" then Ok [Ok "Hello, "; Ok "world"]
  else if String.eqb content "%PDF encrypted" then
    Ok [Err (ValueError "document closed or encrypted")]
  else Err (LibraryError "Failed to open file").

Definition empty_world : World := mkWorld ∅ ∅ 0 [].

Definition sample_id : str := "3f2b8c1e-0000-4000-8000-000000000001".

Definition sample_env : Env := mkEnv sample_id ["pdf"; "txt"] None None.


Definition notes_txt : UploadFile :=
  mkUploadFile (Some "notes.txt") "hello world" false.
Definition report_docx : UploadFile :=
  mkUploadFile (Some "report.docx") "PK" false.
Definition dotless_txt : UploadFile :=
  mkUploadFile (Some "txt") "hello world" false.
Definition crlf_txt : UploadFile :=
  mkUploadFile (Some "dos.txt")
               (String "a" (String Py.CR (String Py.LF "b"))) false.
Definition two_pages_pdf : UploadFile :=
  mkUploadFile (Some "paper.PDF") "%PDF two pages" false.
Definition encrypted_pdf : UploadFile :=
  mkUploadFile (Some "locked.pdf") "%PDF encrypted" false.
Definition corrupt_pdf : UploadFile :=
  mkUploadFile (Some "broken.pdf") "not a document" false.

(** A world in which one document was uploaded earlier. *)
Definition earlier_entry : Entry.t :=
  Entry.mk (Some "old.txt") "backend/storage/0a.txt" "txt" "old text".
Definition world_with_entry : World :=
  mkWorld {[ "backend/storage/0a.txt" := "old text" ]}
          {[ "0a" := earlier_entry ]} 0 [].

(** A world in which the encrypted document is on disk. *)
Definition world_with_encrypted : World :=
  mkWorld {[ "backend/storage/locked.pdf" := "%PDF encrypted" ]} ∅ 0 [].

(** A second stand-in for PyMuPDF: a document of three pages whose
    second page cannot be rendered. *)
Definition paged_fitz (content : bytes) : raising (list (raising str)) :=
  if String.eqb content "%PDF bad page two" then
    Ok [Ok "page one"; Err (LibraryError "cannot render page");
        Ok "page three"]
  else Err (LibraryError "Failed to open file").

Definition second_id : str := "3f2b8c1e-0000-4000-8000-000000000002".
Definition third_id : str := "3f2b8c1e-0000-4000-8000-000000000003".

Definition second_env : Env := mkEnv second_id ["pdf"; "txt"] None None.
Definition third_env : Env := mkEnv third_id ["pdf"; "txt"] None None.

(** The disk refuses the file, or fills up after five bytes. *)
Definition open_fault_env : Env :=
  mkEnv sample_id ["pdf"; "txt"]
        (Some (OpenFails "[Errno 13] Permission denied")) None.
Definition copy_fault_env : Env :=
  mkEnv sample_id ["pdf"; "txt"]
        (Some (CopyFails "hello" "[Errno 28] No space left on device")) None.

(** The written file cannot be removed again. *)
Definition remove_fault_env : Env :=
  mkEnv sample_id ["pdf"; "txt"] None
        (Some "[Errno 13] Permission denied").

Definition latin1_txt : UploadFile :=
  mkUploadFile (Some "caf.txt") (String "c" (String "233" EmptyString)) false.
Definition bad_page_pdf : UploadFile :=
  mkUploadFile (Some "scan.pdf") "%PDF bad page two" false.
Definition archive_txt : UploadFile :=
  mkUploadFile (Some "../etc/notes.v2.TXT") "hello world" false.

Definition world_with_bad_page : World :=
  mkWorld {[ "backend/storage/scan.pdf" := "%PDF bad page two" ]} ∅ 0 [].
Definition world_with_dos_file : World :=
  mkWorld {[ "backend/storage/dos.txt"
             := String "a" (String Py.CR (String Py.LF "b")) ]} ∅ 0 [].

(** One request, with what handling it reads from outside. *)
Inductive request : Type :=
| Upload (e : Env) (f : UploadFile)
| GetText (doc_id : str).

Definition sample_requests : list request :=
  [Upload sample_env notes_txt; GetText sample_id;
   Upload second_env corrupt_pdf; Upload third_env two_pages_pdf;
   GetText "unknown-id"].

(** ** The service *)

Section Service.

(** [str.lower] over all of Unicode. *)
Variable lower : str -> str.

(** [fitz.open] on the content of a file: it raises, or gives the
    document, a sequence of pages whose [get_text()] returns the page's
    plain text or raises. *)
Variable fitz_open : bytes -> raising (list (raising str)).

(** The loop [for page in doc: text_content += page.get_text()]. *)
Fixpoint get_text (doc : list (raising str)) (text_content : str) : raising str :=
  match doc with
  | [] => Ok text_content
  | Ok page_text :: rest => get_text rest (text_content +:+ page_text)
  | Err e :: _ => Err e
  end.

(** The [try] block of [extract_text_from_file]. *)
Definition extract_body (w : World) (file_path file_ext : str)
  : raising str * World :=
  if String.eqb file_ext "pdf" then
    match storage w !! file_path with
    | None => (Err FileNotFoundError, w)
    | Some content =>
        match fitz_open content with
        | Err e => (Err e, w)
        | Ok doc =>
            let w1 := acquire w in                    (* doc = fitz.open(..) *)
            match get_text doc EmptyString with
            | Err e => (Err e, w1)                    (* doc.close() skipped *)
            | Ok text_content => (Ok text_content, release w1)
            end
        end
    end
  else if String.eqb file_ext "txt" then
    match storage w !! file_path with
    | None => (Err FileNotFoundError, w)
    | Some content =>
        let w1 := acquire w in                        (* with open(..) as f *)
        let r := match Utf8.decode content with
                 | Some t => Ok (universal_newlines t)
                 | None => Err UnicodeDecodeError
                 end in
        (r, release w1)                               (* leaving the with *)
    end
  else (Err (ValueError ("Unsupported file type: ." +:+ file_ext)), w).

(** [extract_text_from_file]: the body, and the handler
    [except Exception as e] that prints and raises a 500. *)
Definition extract_text_from_file (w : World) (file_path file_ext : str)
  : outcome str * World :=
  match extract_body w file_path file_ext with
  | (Ok t, w') => (Returned t, w')
  | (Err e, w') =>
      (Raised (HTTPException HTTP_500_INTERNAL_SERVER_ERROR
                             "Failed to extract text from file."),
       print w' file_path e)
  end.

(** [file.filename.split(".")[-1].lower()] if [file.filename] is true,
    else the empty string. *)
Definition file_extension (f : UploadFile) : str :=
  match filename f with
  | Some name =>
      if Py.truthy name then lower (Py.last_item (Py.split Py.DOT name))
      else EmptyString
  | None => EmptyString
  end.

Definition invalid_type_detail (e : Env) : str :=
  "Invalid file type. Only " +:+ Py.ascii_upper (Py.join ", " (set_order e))
  +:+ " files are allowed.".

Definition stored_path (doc_id ext : str) : str :=
  path_join STORAGE_DIR (doc_id +:+ "." +:+ ext).

Definition upload_file (e : Env) (w : World) (f : UploadFile)
  : outcome (str * str) * World * UploadFile :=
  let doc_id := uuid4 e in
  (* 1. Validate file extension *)
  let ext := file_extension f in
  if negb (bool_decide (ext ∈ ALLOWED_EXTENSIONS)) then
    (Raised (HTTPException HTTP_400_BAD_REQUEST (invalid_type_detail e)), w, f)
  else
    (* 2. Store uploaded file; the finally clause closes [f] *)
    let file_path := stored_path doc_id ext in
    match write_fault e with
    | Some (OpenFails msg) =>
        (Raised (HTTPException HTTP_500_INTERNAL_SERVER_ERROR
                               ("Could not save file: " +:+ msg)),
         w, close f)
    | Some (CopyFails written msg) =>
        (Raised (HTTPException HTTP_500_INTERNAL_SERVER_ERROR
                               ("Could not save file: " +:+ msg)),
         set_storage w (<[file_path := written]> (storage w)), close f)
    | None =>
        let w1 := set_storage w (<[file_path := file f]> (storage w)) in
        (* 3. Extract text *)
        match extract_text_from_file w1 file_path ext with
        | (Returned extracted_text, w2) =>
            let entry := Entry.mk (filename f) file_path ext extracted_text in
            (Returned (doc_id, "File uploaded and text extracted successfully."),
             set_upload_store w2 (<[doc_id := entry]> (_upload_store w2)),
             close f)
        | (Raised ex, w2) =>
            match storage w2 !! file_path with        (* os.path.exists *)
            | Some _ =>
                match remove_fault e with             (* os.remove *)
                | Some msg => (Raised (Uncaught (OSError msg)), w2, close f)
                | None =>
                    (Raised ex,
                     set_storage w2 (delete file_path (storage w2)), close f)
                end
            | None => (Raised ex, w2, close f)
            end
        end
    end.

Definition get_extracted_text (w : World) (doc_id : str)
  : outcome (str * option str * str) * World :=
  match _upload_store w !! doc_id with
  | None =>
      (Raised (HTTPException HTTP_404_NOT_FOUND "Document ID not found."), w)
  | Some entry =>
      (Returned (doc_id, Entry.filename entry, Entry.text entry), w)
  end.

(** *** Vocabulary of the statements *)

Definition upload_outcome (e : Env) (w : World) (f : UploadFile)
  : outcome (str * str) := (upload_file e w f).1.1.
Definition upload_world (e : Env) (w : World) (f : UploadFile) : World :=
  (upload_file e w f).1.2.
Definition upload_stream (e : Env) (w : World) (f : UploadFile) : UploadFile :=
  (upload_file e w f).2.

(** The path an upload is stored under. *)
Definition upload_path (e : Env) (f : UploadFile) : str :=
  stored_path (uuid4 e) (file_extension f).

(** The upload passes the extension check. *)
Definition accepted (f : UploadFile) : Prop :=
  file_extension f ∈ ALLOWED_EXTENSIONS.

(** The upload reaches step 2 and the copy to disk raises nothing. *)
Definition bytes_written (e : Env) (f : UploadFile) : Prop :=
  accepted f ∧ write_fault e = None.

(** The world in which step 3 starts. *)
Definition written (e : Env) (w : World) (f : UploadFile) : World :=
  set_storage w (<[upload_path e f := file f]> (storage w)).

Definition extraction (e : Env) (w : World) (f : UploadFile)
  : outcome str * World :=
  extract_text_from_file (written e w f) (upload_path e f) (file_extension f).

Definition extraction_succeeds (e : Env) (w : World) (f : UploadFile) : Prop :=
  ∃ t, (extraction e w f).1 = Returned t.


(** Concatenation with nothing in between. *)
Definition concat_texts (texts : list str) : str :=
  foldr String.append EmptyString texts.

(** The world after a request, and after a sequence of requests handled
    one after the other. *)
Definition handle (w : World) (r : request) : World :=
  match r with
  | Upload e f => upload_world e w f
  | GetText doc_id => (get_extracted_text w doc_id).2
  end.

Fixpoint serve (w : World) (rs : list request) : World :=
  match rs with
  | [] => w
  | r :: rest => serve (handle w r) rest
  end.

(** Each upload of the sequence draws an identifier that is not a key
    of the store at the moment it is handled. *)
Fixpoint fresh_ids (w : World) (rs : list request) : Prop :=
  match rs with
  | [] => True
  | r :: rest =>
      match r with
      | Upload e _ => _upload_store w !! uuid4 e = None
      | GetText _ => True
      end
      ∧ fresh_ids (handle w r) rest
  end.

(** Every entry of the store has an allowed extension, names the path
    built from its own key, and holds the text that extracting that
    path gives now. *)
Definition consistent (w : World) : Prop :=
  ∀ id entry,
    _upload_store w !! id = Some entry →
    Entry.extension entry ∈ ALLOWED_EXTENSIONS
    ∧ Entry.filepath entry = stored_path id (Entry.extension entry)
    ∧ (extract_text_from_file w (Entry.filepath entry)
                              (Entry.extension entry)).1
      = Returned (Entry.text entry).

(** ** Properties *)

(** *** Strings *)

Lemma append_nil_r (s : str) : s +:+ EmptyString = s.
Proof. induction s as [|c s IH]; [done | exact (f_equal (String c) IH)]. Qed.

Lemma append_assoc (a b c : str) : (a +:+ b) +:+ c = a +:+ (b +:+ c).
Proof. induction a as [|x a IH]; [done | exact (f_equal (String x) IH)]. Qed.

Lemma split_not_nil sep s : Py.split sep s ≠ [].
Proof.
  destruct s as [|c s]; simpl; [done|].
  destruct (Ascii.eqb c sep); [done|]. by destruct (Py.split sep s).
Qed.

Lemma split_no_sep sep s : Py.contains sep s = false → Py.split sep s = [s].
Proof.
  induction s as [|c s IH]; simpl; [done|].
  intros [Hc Hs]%orb_false_iff. by rewrite Hc, (IH Hs).
Qed.

Lemma split_app sep pre suf :
  Py.split sep (pre +:+ String sep suf)
  = (Py.split sep pre ++ Py.split sep suf)%list.
Proof.
  induction pre as [|c pre IH]; simpl.
  - by rewrite Ascii.eqb_refl.
  - destruct (Ascii.eqb c sep); rewrite IH; [done|].
    pose proof (split_not_nil sep pre). by destruct (Py.split sep pre).
Qed.

(** [split(".")[-1]] is what follows the last separator. *)
Lemma last_split_app sep pre suf :
  Py.contains sep suf = false →
  Py.last_item (Py.split sep (pre +:+ String sep suf)) = suf.
Proof.
  intros H. rewrite split_app, (split_no_sep _ _ H).
  unfold Py.last_item. apply last_last.
Qed.

(** Without a separator it is the whole string. *)
Lemma last_split_no_sep sep s :
  Py.contains sep s = false → Py.last_item (Py.split sep s) = s.
Proof. intros H. by rewrite (split_no_sep _ _ H). Qed.

Lemma universal_newlines_no_cr s :
  Py.contains Py.CR s = false → universal_newlines s = s.
Proof.
  induction s as [|c s IH]; simpl; [done|].
  intros [Hc Hs]%orb_false_iff. by rewrite Hc, (IH Hs).
Qed.

(** *** The extension *)

Lemma file_extension_absent f :
  filename f = None ∨ filename f = Some EmptyString →
  file_extension f = EmptyString.
Proof. unfold file_extension. by intros [-> | ->]. Qed.

Lemma file_extension_after_last_dot f pre suf :
  filename f = Some (pre +:+ String Py.DOT suf) →
  Py.contains Py.DOT suf = false →
  file_extension f = lower suf.
Proof.
  unfold file_extension. intros -> H. rewrite (last_split_app _ _ _ H).
  by destruct pre.
Qed.

Lemma file_extension_no_dot f name :
  filename f = Some name →
  Py.contains Py.DOT name = false →
  file_extension f = if Py.truthy name then lower name else EmptyString.
Proof.
  unfold file_extension. intros -> H. by rewrite (last_split_no_sep _ _ H).
Qed.

(** *** The world under the setters *)

Lemma release_acquire w : release (acquire w) = w.
Proof. by destruct w. Qed.

(** *** Extraction *)

Lemma get_text_all_ok texts acc :
  get_text (map Ok texts) acc = Ok (acc +:+ concat_texts texts).
Proof.
  revert acc. induction texts as [|t texts IH]; intros acc; simpl.
  - by rewrite append_nil_r.
  - by rewrite IH, append_assoc.
Qed.

(** The body touches neither the files nor the store nor the output. *)
Lemma extract_body_frame w file_path file_ext :
  storage (extract_body w file_path file_ext).2 = storage w
  ∧ _upload_store (extract_body w file_path file_ext).2 = _upload_store w
  ∧ printed (extract_body w file_path file_ext).2 = printed w.
Proof.
  unfold extract_body.
  repeat (case_match; simpl; try done).
Qed.

Lemma extract_frame w file_path file_ext :
  storage (extract_text_from_file w file_path file_ext).2 = storage w
  ∧ _upload_store (extract_text_from_file w file_path file_ext).2
    = _upload_store w.
Proof.
  unfold extract_text_from_file.
  destruct (extract_body_frame w file_path file_ext) as (Hs & Hu & _).
  destruct (extract_body w file_path file_ext) as [[t|e] w']; simpl in *; done.
Qed.

(** A failed extraction raises the 500 of the handler, whatever the
    cause; a successful one prints nothing. *)
Lemma extract_raises_500 w file_path file_ext ex :
  (extract_text_from_file w file_path file_ext).1 = Raised ex →
  ex = HTTPException HTTP_500_INTERNAL_SERVER_ERROR
                     "Failed to extract text from file.".
Proof.
  unfold extract_text_from_file.
  destruct (extract_body w file_path file_ext) as [[t|e] w']; simpl; congruence.
Qed.

Lemma extract_txt w file_path content :
  storage w !! file_path = Some content →
  extract_text_from_file w file_path "txt"
  = match Utf8.decode content with
    | Some t => (Returned (universal_newlines t), w)
    | None =>
        (Raised (HTTPException HTTP_500_INTERNAL_SERVER_ERROR
                               "Failed to extract text from file."),
         print w file_path UnicodeDecodeError)
    end.
Proof.
  intros H. unfold extract_text_from_file, extract_body. simpl. rewrite H.
  rewrite release_acquire. by destruct (Utf8.decode content).
Qed.

Lemma extract_pdf_pages w file_path content texts :
  storage w !! file_path = Some content →
  fitz_open content = Ok (map Ok texts) →
  extract_text_from_file w file_path "pdf"
  = (Returned (concat_texts texts), w).
Proof.
  intros H Hd. unfold extract_text_from_file, extract_body. simpl.
  rewrite H, Hd, get_text_all_ok, release_acquire. done.
Qed.

(** *** The paths through [upload_file] *)

Lemma accepted_decide f :
  accepted f → bool_decide (file_extension f ∈ ALLOWED_EXTENSIONS) = true.
Proof. intros H. by apply bool_decide_eq_true. Qed.

Lemma upload_rejected e w f :
  ¬ accepted f →
  upload_file e w f
  = (Raised (HTTPException HTTP_400_BAD_REQUEST (invalid_type_detail e)), w, f).
Proof.
  intros H. unfold upload_file.
  by rewrite (bool_decide_eq_false_2 _ H).
Qed.

Lemma upload_write_fails e w f fault :
  accepted f → write_fault e = Some fault →
  ∃ msg,
    upload_outcome e w f
    = Raised (HTTPException HTTP_500_INTERNAL_SERVER_ERROR
                            ("Could not save file: " +:+ msg))
    ∧ _upload_store (upload_world e w f) = _upload_store w
    ∧ upload_stream e w f = close f.
Proof.
  intros Ha Hw. unfold upload_outcome, upload_world, upload_stream, upload_file.
  rewrite (accepted_decide _ Ha), Hw. simpl.
  destruct fault as [msg | written' msg]; by exists msg.
Qed.

Lemma written_lookup e w f :
  storage (written e w f) !! upload_path e f = Some (file f).
Proof. unfold written. simpl. apply lookup_insert_eq. Qed.

Lemma upload_extracted e w f t w2 :
  bytes_written e f →
  extraction e w f = (Returned t, w2) →
  upload_file e w f
  = (Returned (uuid4 e, "File uploaded and text extracted successfully."),
     set_upload_store w2
       (<[uuid4 e := Entry.mk (filename f) (upload_path e f)
                              (file_extension f) t]> (_upload_store w2)),
     close f).
Proof.
  intros [Ha Hw] Hx. unfold upload_file.
  rewrite (accepted_decide _ Ha), Hw. simpl.
  unfold extraction, written, upload_path in Hx. by rewrite Hx.
Qed.

Lemma upload_extraction_fails e w f ex w2 :
  bytes_written e f →
  extraction e w f = (Raised ex, w2) →
  upload_file e w f
  = match remove_fault e with
    | Some msg => (Raised (Uncaught (OSError msg)), w2, close f)
    | None =>
        (Raised ex,
         set_storage w2 (delete (upload_path e f) (storage w2)), close f)
    end.
Proof.
  intros [Ha Hw] Hx. unfold upload_file.
  rewrite (accepted_decide _ Ha), Hw. simpl.
  pose proof (extract_frame (written e w f) (upload_path e f)
                            (file_extension f)) as [Hs _].
  fold (extraction e w f) in Hs. rewrite Hx in Hs. simpl in Hs.
  assert (storage w2 !! stored_path (uuid4 e) (file_extension f)
          = Some (file f)) as Hl by (rewrite Hs; apply written_lookup).
  unfold extraction, written, upload_path in Hx. by rewrite Hx, Hl.
Qed.

(** Every upload ends in one of two ways: it returns, with the bytes
    on disk and the entry of its identifier inserted, or it raises and
    the store is what it was. *)
Lemma upload_cases e w f :
  (∃ t,
      bytes_written e f
      ∧ (extraction e w f).1 = Returned t
      ∧ upload_outcome e w f
        = Returned (uuid4 e, "File uploaded and text extracted successfully.")
      ∧ _upload_store (upload_world e w f)
        = <[uuid4 e := Entry.mk (filename f) (upload_path e f)
                                (file_extension f) t]> (_upload_store w)
      ∧ storage (upload_world e w f) !! upload_path e f = Some (file f))
  ∨ (¬ (bytes_written e f ∧ extraction_succeeds e w f)
     ∧ (∃ ex, upload_outcome e w f = Raised ex)
     ∧ _upload_store (upload_world e w f) = _upload_store w).
Proof.
  unfold upload_outcome, upload_world.
  destruct (decide (accepted f)) as [Ha | Hna].
  2: { right. rewrite (upload_rejected _ _ _ Hna). simpl.
       split; [by intros [[? _] _] | eauto]. }
  destruct (write_fault e) as [fault|] eqn:Hw.
  { right. destruct (upload_write_fails e w f fault Ha Hw) as (msg & Ho & Hs & _).
    unfold upload_outcome, upload_world in Ho, Hs.
    split; [intros [[_ ?] _]; congruence | eauto]. }
  assert (bytes_written e f) as Hb by done.
  pose proof (extract_frame (written e w f) (upload_path e f)
                            (file_extension f)) as [Hfs Hst].
  fold (extraction e w f) in Hfs, Hst.
  destruct (extraction e w f) as [[t | ex] w2] eqn:Hx; simpl in Hfs, Hst.
  - left. exists t. rewrite (upload_extracted _ _ _ _ _ Hb Hx). simpl.
    rewrite Hfs, Hst. repeat split; try done. apply written_lookup.
  - right. rewrite (upload_extraction_fails _ _ _ _ _ Hb Hx).
    split; [intros [_ [t Ht]]; by rewrite Hx in Ht |].
    destruct (remove_fault e); simpl; eauto.
Qed.

Lemma accepted_txt f : file_extension f = "txt" → accepted f.
Proof. unfold accepted, ALLOWED_EXTENSIONS. intros ->. set_solver. Qed.

Lemma accepted_pdf f : file_extension f = "pdf" → accepted f.
Proof. unfold accepted, ALLOWED_EXTENSIONS. intros ->. set_solver. Qed.



(** What a successful upload leaves for [get_extracted_text]. *)
Lemma get_after_upload e w f t :
  bytes_written e f →
  (extraction e w f).1 = Returned t →
  upload_outcome e w f
  = Returned (uuid4 e, "File uploaded and text extracted successfully.")
  ∧ (get_extracted_text (upload_world e w f) (uuid4 e)).1
    = Returned (uuid4 e, filename f, t)
  ∧ Entry.text <$> _upload_store (upload_world e w f) !! uuid4 e = Some t.
Proof.
  intros Hb Ht.
  destruct (upload_cases e w f) as [(t' & _ & Ht' & Ho & Hs & _) | (Hn & _)].
  - rewrite Ht in Ht'. injection Ht' as <-.
    unfold get_extracted_text. rewrite Hs, lookup_insert_eq. done.
  - destruct Hn. split; [done | by exists t].
Qed.

(** *** The handlers *)

(** The store after an upload.  Provided the generated identifier is
    new, the store has an
    entry for it after the request if and only if the bytes were
    written to the storage path and extraction on that path succeeded
    (and then the file is still there).  When extraction fails, the
    store is unchanged and the response is a 500; the written file is
    removed and the extractor's exception is the one raised, unless
    [os.remove] itself raises, in which case its exception escapes. *)
Theorem upload_record_iff_written_and_extracted e w f :
  _upload_store w !! uuid4 e = None →
  (is_Some (_upload_store (upload_world e w f) !! uuid4 e)
   ↔ bytes_written e f ∧ extraction_succeeds e w f)
  ∧ (is_Some (_upload_store (upload_world e w f) !! uuid4 e) →
     storage (upload_world e w f) !! upload_path e f = Some (file f))
  ∧ (bytes_written e f → ¬ extraction_succeeds e w f →
     _upload_store (upload_world e w f) = _upload_store w
     ∧ status_of HTTP_201_CREATED (upload_outcome e w f)
       = HTTP_500_INTERNAL_SERVER_ERROR
     ∧ match remove_fault e with
       | None =>
           storage (upload_world e w f) !! upload_path e f = None
           ∧ upload_outcome e w f
             = Raised (HTTPException HTTP_500_INTERNAL_SERVER_ERROR
                                     "Failed to extract text from file.")
       | Some msg => upload_outcome e w f = Raised (Uncaught (OSError msg))
       end).
Proof.
  intros Hfresh.
  destruct (upload_cases e w f) as [(t & Hb & Ht & Ho & Hs & Hf) | (Hn & _ & Hs)].
  - rewrite Hs, lookup_insert_eq. split; [|split].
    + split; [intros _; split; [done | by exists t] | by eauto].
    + by intros _.
    + intros _ Hno. destruct Hno. by exists t.
  - rewrite Hs, Hfresh. split; [|split].
    + split; [by intros [? ?] | done].
    + by intros [? ?].
    + intros Hb Hno. split; [done|].
      destruct (extraction e w f) as [[t | ex] w2] eqn:Hx.
      { destruct Hno. exists t. by rewrite Hx. }
      pose proof (extract_raises_500 (written e w f) (upload_path e f)
                    (file_extension f) ex) as Hex.
      fold (extraction e w f) in Hex. rewrite Hx in Hex.
      specialize (Hex eq_refl). subst ex.
      unfold upload_outcome, upload_world.
      rewrite (upload_extraction_fails _ _ _ _ _ Hb Hx).
      destruct (remove_fault e); simpl; [done|].
      split; [done|]. split; [apply lookup_delete_eq | done].
Qed.

(** C3. An upload whose derived extension is not in the allowed set is
    answered with the 400 of the validation step, and the world (the
    storage directory and the store with it) is what it was. *)
Theorem upload_unsupported_type_rejected e w f :
  ¬ accepted f →
  upload_outcome e w f
  = Raised (HTTPException HTTP_400_BAD_REQUEST (invalid_type_detail e))
  ∧ status_of HTTP_201_CREATED (upload_outcome e w f) = HTTP_400_BAD_REQUEST
  ∧ storage (upload_world e w f) = storage w
  ∧ _upload_store (upload_world e w f) = _upload_store w
  ∧ upload_world e w f = w.
Proof.
  intros Hna. unfold upload_outcome, upload_world.
  by rewrite (upload_rejected _ _ _ Hna).
Qed.

(** C4, as the code has it.  A [.txt] upload of valid UTF-8 content
    that reaches the disk returns its identifier, and [get_extracted_text]
    on it returns the uploaded filename and the content with universal
    newlines applied; that is the content itself when it has no carriage
    return. *)
Theorem txt_upload_round_trip e w f :
  file_extension f = "txt" →
  Utf8.valid (file f) = true →
  write_fault e = None →
  upload_outcome e w f
  = Returned (uuid4 e, "File uploaded and text extracted successfully.")
  ∧ (get_extracted_text (upload_world e w f) (uuid4 e)).1
    = Returned (uuid4 e, filename f, universal_newlines (file f))
  ∧ (Py.contains Py.CR (file f) = false →
     (get_extracted_text (upload_world e w f) (uuid4 e)).1
     = Returned (uuid4 e, filename f, file f)).
Proof.
  intros Hext Hv Hw.
  assert (bytes_written e f) as Hb by (split; [by apply accepted_txt | done]).
  assert ((extraction e w f).1 = Returned (universal_newlines (file f))) as Hx.
  { unfold extraction. rewrite Hext.
    rewrite (extract_txt _ _ _ (written_lookup e w f)).
    unfold Utf8.decode. by rewrite Hv. }
  destruct (get_after_upload e w f _ Hb Hx) as (Ho & Hg & _).
  split; [done|]. split; [done|].
  intros Hcr. by rewrite Hg, (universal_newlines_no_cr _ Hcr).
Qed.

(** C5. A [.pdf] upload that reaches the disk and that the library
    opens as a document whose pages all render is recorded with the
    concatenation of the pages' texts, in page order, nothing in
    between; that is also what [get_extracted_text] returns. *)
Theorem pdf_upload_concatenates_pages e w f texts :
  file_extension f = "pdf" →
  write_fault e = None →
  fitz_open (file f) = Ok (map Ok texts) →
  (extraction e w f).1 = Returned (concat_texts texts)
  ∧ upload_outcome e w f
    = Returned (uuid4 e, "File uploaded and text extracted successfully.")
  ∧ Entry.text <$> _upload_store (upload_world e w f) !! uuid4 e
    = Some (concat_texts texts)
  ∧ (get_extracted_text (upload_world e w f) (uuid4 e)).1
    = Returned (uuid4 e, filename f, concat_texts texts).
Proof.
  intros Hext Hw Hd.
  assert (bytes_written e f) as Hb by (split; [by apply accepted_pdf | done]).
  assert ((extraction e w f).1 = Returned (concat_texts texts)) as Hx.
  { unfold extraction. rewrite Hext.
    by rewrite (extract_pdf_pages _ _ _ _ (written_lookup e w f) Hd). }
  destruct (get_after_upload e w f _ Hb Hx) as (Ho & Hg & Ht). done.
Qed.

(** C6. [get_extracted_text] answers 404 with the detail
    [Document ID not found.] exactly when the identifier is not a key of
    the store; for a key it returns the recorded filename and text as
    they are.  The identifier of an upload that raised, when it was not
    a key before, is not a key afterwards. *)
Theorem get_extracted_text_found_or_404 e w f doc_id :
  ((get_extracted_text w doc_id).1
   = Raised (HTTPException HTTP_404_NOT_FOUND "Document ID not found.")
   ↔ _upload_store w !! doc_id = None)
  ∧ (∀ entry, _upload_store w !! doc_id = Some entry →
       (get_extracted_text w doc_id).1
       = Returned (doc_id, Entry.filename entry, Entry.text entry)
       ∧ status_of HTTP_200_OK (get_extracted_text w doc_id).1 = HTTP_200_OK)
  ∧ (_upload_store w !! uuid4 e = None →
     (∀ r, upload_outcome e w f ≠ Returned r) →
     (get_extracted_text (upload_world e w f) (uuid4 e)).1
     = Raised (HTTPException HTTP_404_NOT_FOUND "Document ID not found.")).
Proof.
  split; [|split].
  - unfold get_extracted_text. by destruct (_upload_store w !! doc_id).
  - intros entry H. unfold get_extracted_text. by rewrite H.
  - intros Hfresh Hfail.
    destruct (upload_cases e w f) as [(t & _ & _ & Ho & _) | (_ & _ & Hs)].
    + by destruct (Hfail _ Ho).
    + unfold get_extracted_text. by rewrite Hs, Hfresh.
Qed.

(** Apart from a page that raises, every path of the extractor gives
    back the handle it took. *)
Lemma extract_releases_unless_page_raises w file_path file_ext :
  open_handles (extract_text_from_file w file_path file_ext).2 = open_handles w
  ∨ (file_ext = "pdf"
     ∧ ∃ content doc e,
         storage w !! file_path = Some content
         ∧ fitz_open content = Ok doc
         ∧ get_text doc EmptyString = Err e).
Proof.
  unfold extract_text_from_file, extract_body.
  destruct (String.eqb_spec file_ext "pdf") as [-> | _].
  - destruct (storage w !! file_path) as [content|] eqn:Hc; [|by left].
    destruct (fitz_open content) as [doc | e] eqn:Hd; [|by left].
    destruct (get_text doc EmptyString) as [t | e] eqn:Hg.
    + left. by rewrite release_acquire.
    + right. split; [done|]. by exists content, doc, e.
  - left. destruct (String.eqb file_ext "txt"); [|done].
    destruct (storage w !! file_path) as [content|]; [|done].
    rewrite release_acquire. by destruct (Utf8.decode content).
Qed.

(** C7, at the path that breaks it.  When the document opens and a page
    raises, [doc.close()] is never reached: the call ends in the 500 of
    the handler with one more handle open than before. *)
Theorem pdf_page_error_leaves_document_open w file_path content doc e :
  storage w !! file_path = Some content →
  fitz_open content = Ok doc →
  get_text doc EmptyString = Err e →
  (extract_text_from_file w file_path "pdf").1
  = Raised (HTTPException HTTP_500_INTERNAL_SERVER_ERROR
                          "Failed to extract text from file.")
  ∧ open_handles (extract_text_from_file w file_path "pdf").2
    = S (open_handles w).
Proof.
  intros Hc Hd Hg. unfold extract_text_from_file, extract_body. simpl.
  by rewrite Hc, Hd, Hg.
Qed.


(** C9. [get_extracted_text] leaves the world as it is; an upload
    changes the store at no key but its own identifier; so, the
    identifier being new, every entry present before is present,
    unchanged, afterwards. *)
Theorem stored_records_never_changed e w f doc_id k entry :
  _upload_store w !! uuid4 e = None →
  _upload_store w !! k = Some entry →
  (get_extracted_text w doc_id).2 = w
  ∧ (∀ k', k' ≠ uuid4 e →
       _upload_store (upload_world e w f) !! k' = _upload_store w !! k')
  ∧ _upload_store (upload_world e w f) !! k = Some entry.
Proof.
  intros Hfresh Hk.
  assert (∀ k', k' ≠ uuid4 e →
            _upload_store (upload_world e w f) !! k' = _upload_store w !! k')
    as Hframe.
  { intros k' Hne.
    destruct (upload_cases e w f) as [(t & _ & _ & _ & Hs & _) | (_ & _ & Hs)];
      rewrite Hs; [by rewrite lookup_insert_ne | done]. }
  split; [|split].
  - unfold get_extracted_text. by destruct (_upload_store w !! doc_id).
  - done.
  - rewrite Hframe; [done|]. intros ->. congruence.
Qed.

(** C10. A rejected upload returns with the stream as it was handed
    in, not closed by the handler; an accepted one always comes back
    closed, by the [finally] of the storage step. *)
Theorem rejected_upload_leaves_stream_open e w f :
  (¬ accepted f →
   upload_stream e w f = f ∧ closed (upload_stream e w f) = closed f)
  ∧ (accepted f →
     upload_stream e w f = close f ∧ closed (upload_stream e w f) = true).
Proof.
  split.
  - intros Hna. unfold upload_stream. by rewrite (upload_rejected _ _ _ Hna).
  - intros Ha. destruct (write_fault e) as [fault|] eqn:Hw.
    + destruct (upload_write_fails e w f fault Ha Hw) as (_ & _ & _ & ->). done.
    + assert (bytes_written e f) as Hb by done. unfold upload_stream.
      destruct (extraction e w f) as [[t | ex] w2] eqn:Hx.
      * by rewrite (upload_extracted _ _ _ _ _ Hb Hx).
      * rewrite (upload_extraction_fails _ _ _ _ _ Hb Hx).
        by destruct (remove_fault e).
Qed.

(** ** Further properties of the three functions *)

(** *** More on strings *)

Lemma length_append (a b : str) :
  String.length (a +:+ b) = String.length a + String.length b.
Proof. induction a as [|c a IH]; [done | simpl; by rewrite IH]. Qed.

(** Equal strings with suffixes of one length have equal prefixes. *)
Lemma append_same_length_suffix (a b s t : str) :
  String.length s = String.length t → a +:+ s = b +:+ t → a = b.
Proof.
  intros Hlen. revert b.
  induction a as [|c a IH]; intros [|d b] H.
  - done.
  - apply (f_equal String.length) in H.
    rewrite !length_append in H. simpl in H. lia.
  - apply (f_equal String.length) in H.
    rewrite !length_append in H. simpl in H. lia.
  - change (String c (a +:+ s) = String d (b +:+ t)) in H.
    injection H as -> H. by rewrite (IH _ H).
Qed.

(** A string with a separator splits at its last one. *)
Lemma contains_last_occurrence sep s :
  Py.contains sep s = true →
  ∃ pre suf, s = pre +:+ String sep suf ∧ Py.contains sep suf = false.
Proof.
  induction s as [|c s IH]; simpl; [done|].
  destruct (Py.contains sep s) eqn:Hs.
  - intros _. destruct (IH eq_refl) as (pre & suf & -> & Hsuf).
    by exists (String c pre), suf.
  - rewrite orb_false_r. intros ->%Ascii.eqb_eq.
    by exists EmptyString, s.
Qed.

(** The last item of a split has no separator, and it is the whole
    string or what follows a separator. *)
Lemma last_split_decompose sep s :
  Py.contains sep (Py.last_item (Py.split sep s)) = false
  ∧ (s = Py.last_item (Py.split sep s)
     ∨ ∃ pre, s = pre +:+ String sep (Py.last_item (Py.split sep s))).
Proof.
  destruct (Py.contains sep s) eqn:Hs.
  - destruct (contains_last_occurrence _ _ Hs) as (pre & suf & -> & Hsuf).
    rewrite (last_split_app _ _ _ Hsuf). split; [done|]. right. by exists pre.
  - rewrite (last_split_no_sep _ _ Hs). split; [done | by left].
Qed.

Lemma universal_newlines_bounded n s :
  (String.length s ≤ n)%nat →
  Py.contains Py.CR (universal_newlines s) = false.
Proof.
  revert s. induction n as [|n IH]; intros [|c s] Hlen; simpl in *;
    try done; try lia.
  destruct (Ascii.eqb c Py.CR) eqn:Hc; simpl.
  - destruct s as [|c' s']; [done|].
    destruct (Ascii.eqb c' Py.LF); apply IH; simpl in *; lia.
  - rewrite Hc. apply IH. lia.
Qed.

Lemma allowed_cases x : x ∈ ALLOWED_EXTENSIONS → x = "pdf" ∨ x = "txt".
Proof. unfold ALLOWED_EXTENSIONS. set_solver. Qed.

(** Paths built from different identifiers differ. *)
Lemma stored_path_inj id id' x x' :
  x ∈ ALLOWED_EXTENSIONS → x' ∈ ALLOWED_EXTENSIONS →
  stored_path id x = stored_path id' x' → id = id'.
Proof.
  intros Hx Hx' H. unfold stored_path, path_join in H.
  apply String.app_inj in H. apply String.app_inj in H.
  apply (append_same_length_suffix _ _ _ _) in H; [done|].
  by destruct (allowed_cases _ Hx) as [-> | ->],
              (allowed_cases _ Hx') as [-> | ->].
Qed.

(** *** More on the paths through [upload_file] *)

(** What an upload leaves of the storage directory: nothing changed, a
    file at its own path, or its own path cleared. *)
Lemma upload_storage_cases e w f :
  storage (upload_world e w f) = storage w
  ∨ (accepted f
     ∧ ((∃ b, storage (upload_world e w f)
              = <[upload_path e f := b]> (storage w))
        ∨ storage (upload_world e w f)
          = delete (upload_path e f) (storage w))).
Proof.
  unfold upload_world.
  destruct (decide (accepted f)) as [Ha | Hna];
    [|left; by rewrite (upload_rejected _ _ _ Hna)].
  destruct (write_fault e) as [fault|] eqn:Hw.
  { unfold upload_file. rewrite (accepted_decide _ Ha), Hw. simpl.
    destruct fault as [msg | b msg]; simpl; [by left|].
    right. split; [done|]. left. by exists b. }
  assert (bytes_written e f) as Hb by done.
  pose proof (extract_frame (written e w f) (upload_path e f)
                            (file_extension f)) as [Hfs _].
  fold (extraction e w f) in Hfs.
  destruct (extraction e w f) as [[t | ex] w2] eqn:Hx; simpl in Hfs.
  - rewrite (upload_extracted _ _ _ _ _ Hb Hx). simpl. rewrite Hfs.
    right. split; [done|]. left. by exists (file f).
  - rewrite (upload_extraction_fails _ _ _ _ _ Hb Hx).
    right. split; [done|].
    destruct (remove_fault e); simpl; rewrite Hfs; simpl.
    + left. by exists (file f).
    + right. apply delete_insert_eq.
Qed.

Lemma upload_storage_frame e w f p :
  p ≠ upload_path e f →
  storage (upload_world e w f) !! p = storage w !! p.
Proof.
  intros Hp.
  destruct (upload_storage_cases e w f) as [-> | [_ [[b ->] | ->]]].
  - done.
  - by rewrite lookup_insert_ne.
  - by rewrite lookup_delete_ne.
Qed.

(** The outcome of an extraction depends on the world only through the
    file it reads. *)
Lemma extract_outcome_local w w' file_path file_ext :
  storage w !! file_path = storage w' !! file_path →
  (extract_text_from_file w file_path file_ext).1
  = (extract_text_from_file w' file_path file_ext).1.
Proof.
  intros H. unfold extract_text_from_file, extract_body. rewrite H.
  destruct (String.eqb file_ext "pdf").
  - destruct (storage w' !! file_path) as [content|]; [|done].
    destruct (fitz_open content) as [doc|]; [|done].
    by destruct (get_text doc EmptyString).
  - destruct (String.eqb file_ext "txt"); [|done].
    destruct (storage w' !! file_path) as [content|]; [|done].
    by destruct (Utf8.decode content).
Qed.

Lemma get_text_stops texts err rest acc :
  get_text (map Ok texts ++ Err err :: rest) acc = Err err.
Proof.
  revert acc. induction texts as [|t texts IH]; intros acc; simpl; [done|].
  apply IH.
Qed.

(** An extraction that returns has changed nothing at all. *)
Lemma extract_returned_world w file_path file_ext t :
  (extract_text_from_file w file_path file_ext).1 = Returned t →
  (extract_text_from_file w file_path file_ext).2 = w.
Proof.
  unfold extract_text_from_file, extract_body.
  destruct (String.eqb file_ext "pdf").
  - destruct (storage w !! file_path) as [content|]; [|done].
    destruct (fitz_open content) as [doc|]; [|done].
    destruct (get_text doc EmptyString); [|done].
    intros _. simpl. apply release_acquire.
  - destruct (String.eqb file_ext "txt"); [|done].
    destruct (storage w !! file_path) as [content|]; [|done].
    rewrite release_acquire. by destruct (Utf8.decode content).
Qed.

(** *** The extractor *)

(** X1. Whatever goes wrong inside the extractor, the caller sees the
    same 500 and exactly one line is printed, for the path given; when
    nothing goes wrong the world is returned as it was: nothing
    printed, no handle kept, no file touched. *)
Theorem extract_masks_and_logs_every_failure w file_path file_ext :
  match (extract_text_from_file w file_path file_ext).1 with
  | Returned _ => (extract_text_from_file w file_path file_ext).2 = w
  | Raised ex =>
      ex = HTTPException HTTP_500_INTERNAL_SERVER_ERROR
                         "Failed to extract text from file."
      ∧ storage (extract_text_from_file w file_path file_ext).2 = storage w
      ∧ ∃ err,
          printed (extract_text_from_file w file_path file_ext).2
          = (printed w ++ [(file_path, err)])%list
  end.
Proof.
  destruct (extract_text_from_file w file_path file_ext).1 as [t | ex] eqn:Ho.
  - by apply extract_returned_world with t.
  - split; [by apply extract_raises_500 with w file_path file_ext|].
    split; [apply extract_frame|].
    revert Ho. unfold extract_text_from_file.
    destruct (extract_body_frame w file_path file_ext) as (_ & _ & Hp).
    destruct (extract_body w file_path file_ext) as [[t | err] w'];
      simpl in *; [done|].
    intros _. exists err. by rewrite Hp.
Qed.

(** X2. An extension that is neither [pdf] nor [txt] makes the
    extractor raise its 500 without looking at the file: the
    [ValueError] that names the extension goes to the output only. *)
Theorem extract_unsupported_type w file_path file_ext :
  file_ext ≠ "pdf" → file_ext ≠ "txt" →
  extract_text_from_file w file_path file_ext
  = (Raised (HTTPException HTTP_500_INTERNAL_SERVER_ERROR
                           "Failed to extract text from file."),
     print w file_path (ValueError ("Unsupported file type: ." +:+ file_ext))).
Proof.
  intros Hp Ht. unfold extract_text_from_file, extract_body.
  destruct (String.eqb_spec file_ext "pdf"); [done|].
  by destruct (String.eqb_spec file_ext "txt").
Qed.

(** X3. A document is all or nothing: when a page raises, the text of
    the pages before it is dropped, the pages after it are not
    rendered, and the page's exception is the one printed. *)
Theorem pdf_stops_at_first_failing_page
    w file_path content texts err rest :
  storage w !! file_path = Some content →
  fitz_open content = Ok (map Ok texts ++ Err err :: rest)%list →
  extract_text_from_file w file_path "pdf"
  = (Raised (HTTPException HTTP_500_INTERNAL_SERVER_ERROR
                           "Failed to extract text from file."),
     print (acquire w) file_path err).
Proof.
  intros Hc Hd. unfold extract_text_from_file, extract_body. simpl.
  by rewrite Hc, Hd, get_text_stops.
Qed.

(** X4. Text returned for a [txt] file comes from a file that exists
    and is valid UTF-8, it is that file with universal newlines, and it
    contains no carriage return. *)
Theorem txt_text_has_no_carriage_return w file_path t :
  (extract_text_from_file w file_path "txt").1 = Returned t →
  Py.contains Py.CR t = false
  ∧ ∃ content,
      storage w !! file_path = Some content
      ∧ Utf8.valid content = true
      ∧ t = universal_newlines content.
Proof.
  unfold extract_text_from_file, extract_body. simpl.
  destruct (storage w !! file_path) as [content|]; [|done].
  unfold Utf8.decode.
  destruct (Utf8.valid content) eqn:Hv; simpl; [|done].
  intros [= <-]. split; [by apply universal_newlines_bounded with
                            (String.length content) | by exists content].
Qed.

(** X5. A file that is not there: both branches end in the 500, with
    [FileNotFoundError] printed and no handle taken. *)
Theorem extract_missing_file w file_path file_ext :
  storage w !! file_path = None →
  file_ext ∈ ALLOWED_EXTENSIONS →
  extract_text_from_file w file_path file_ext
  = (Raised (HTTPException HTTP_500_INTERNAL_SERVER_ERROR
                           "Failed to extract text from file."),
     print w file_path FileNotFoundError).
Proof.
  intros Hc Hx. unfold extract_text_from_file, extract_body.
  destruct (allowed_cases _ Hx) as [-> | ->]; simpl; by rewrite Hc.
Qed.

(** *** The upload handler *)

Lemma extract_pdf_page_error w file_path content doc err :
  storage w !! file_path = Some content →
  fitz_open content = Ok doc →
  get_text doc EmptyString = Err err →
  extract_text_from_file w file_path "pdf"
  = (Raised (HTTPException HTTP_500_INTERNAL_SERVER_ERROR
                           "Failed to extract text from file."),
     print (acquire w) file_path err).
Proof.
  intros Hc Hd Hg. unfold extract_text_from_file, extract_body. simpl.
  by rewrite Hc, Hd, Hg.
Qed.

(** An accepted upload has a filename, and not the empty one. *)
Lemma accepted_has_name f :
  accepted f → ∃ name, filename f = Some name ∧ Py.truthy name = true.
Proof.
  unfold accepted, file_extension.
  destruct (filename f) as [[|c name]|]; simpl.
  - intros H. by destruct (allowed_cases _ H).
  - intros _. by exists (String c name).
  - intros H. by destruct (allowed_cases _ H).
Qed.

Lemma upload_path_cases e f :
  accepted f →
  upload_path e f = "backend/storage/" +:+ uuid4 e +:+ ".pdf"
  ∨ upload_path e f = "backend/storage/" +:+ uuid4 e +:+ ".txt".
Proof.
  intros Ha. unfold upload_path, stored_path, path_join, STORAGE_DIR.
  destruct (allowed_cases _ Ha) as [-> | ->]; [by left | by right].
Qed.

(** X6. When the copy to disk raises, the answer is a 500 that quotes
    the exception; the stream is closed all the same; the store, the
    output and the handles are untouched and the extractor is never
    called.  Nothing is cleaned up: if the file could not be opened the
    world is as before, and if the copy broke off, what had been
    written stays at the path. *)
Theorem upload_storage_failure e w f fault :
  accepted f →
  write_fault e = Some fault →
  upload_file e w f
  = match fault with
    | OpenFails msg =>
        (Raised (HTTPException HTTP_500_INTERNAL_SERVER_ERROR
                               ("Could not save file: " +:+ msg)),
         w, close f)
    | CopyFails part msg =>
        (Raised (HTTPException HTTP_500_INTERNAL_SERVER_ERROR
                               ("Could not save file: " +:+ msg)),
         set_storage w (<[upload_path e f := part]> (storage w)), close f)
    end
  ∧ status_of HTTP_201_CREATED (upload_outcome e w f)
    = HTTP_500_INTERNAL_SERVER_ERROR
  ∧ _upload_store (upload_world e w f) = _upload_store w
  ∧ printed (upload_world e w f) = printed w
  ∧ open_handles (upload_world e w f) = open_handles w
  ∧ (∀ part msg, fault = CopyFails part msg →
       storage (upload_world e w f) !! upload_path e f = Some part).
Proof.
  intros Ha Hw.
  assert (upload_file e w f
          = match fault with
            | OpenFails msg =>
                (Raised (HTTPException HTTP_500_INTERNAL_SERVER_ERROR
                                       ("Could not save file: " +:+ msg)),
                 w, close f)
            | CopyFails part msg =>
                (Raised (HTTPException HTTP_500_INTERNAL_SERVER_ERROR
                                       ("Could not save file: " +:+ msg)),
                 set_storage w (<[upload_path e f := part]> (storage w)),
                 close f)
            end) as Heq.
  { unfold upload_file. rewrite (accepted_decide _ Ha), Hw. simpl.
    by destruct fault. }
  split; [done|]. unfold upload_outcome, upload_world. rewrite Heq.
  destruct fault as [msg | part msg]; simpl; repeat split; try done.
  intros part' msg' [= <- _]. apply lookup_insert_eq.
Qed.

(** X7. The only paths whose content an upload can change are the two
    built from its own identifier; the name the client gave the file
    never becomes part of a path. *)
Theorem upload_changes_only_paths_of_its_id e w f p :
  storage (upload_world e w f) !! p ≠ storage w !! p →
  p = upload_path e f
  ∧ (p = "backend/storage/" +:+ uuid4 e +:+ ".pdf"
     ∨ p = "backend/storage/" +:+ uuid4 e +:+ ".txt").
Proof.
  intros Hne.
  destruct (decide (p = upload_path e f)) as [-> | Hp].
  - split; [done|]. apply upload_path_cases.
    destruct (upload_storage_cases e w f) as [Hs | [Ha _]]; [|done].
    by rewrite Hs in Hne.
  - by destruct Hne; apply upload_storage_frame.
Qed.

(** X8. An upload whose extraction fails, and whose file is removed
    again, leaves the storage directory and the store exactly as they
    were, provided nothing was at its path before. *)
Theorem failed_extraction_restores_storage e w f :
  storage w !! upload_path e f = None →
  bytes_written e f →
  ¬ extraction_succeeds e w f →
  remove_fault e = None →
  storage (upload_world e w f) = storage w
  ∧ _upload_store (upload_world e w f) = _upload_store w.
Proof.
  intros Hnew Hb Hno Hr.
  pose proof (extract_frame (written e w f) (upload_path e f)
                            (file_extension f)) as [Hfs Hst].
  fold (extraction e w f) in Hfs, Hst.
  destruct (extraction e w f) as [[t | ex] w2] eqn:Hx; simpl in Hfs, Hst.
  { destruct Hno. exists t. by rewrite Hx. }
  unfold upload_world. rewrite (upload_extraction_fails _ _ _ _ _ Hb Hx), Hr.
  simpl. rewrite Hfs, Hst. simpl. split; [|done].
  by apply delete_insert_id.
Qed.

(** X9. An upload that returns has changed the world in two places
    only: the uploaded bytes are at its path, byte for byte, and the
    entry of its identifier holds a filename that is not empty, that
    path, the derived extension and the extracted text.  Nothing was
    printed and no handle is left open. *)
Theorem successful_upload_world e w f r :
  upload_outcome e w f = Returned r →
  r = (uuid4 e, "File uploaded and text extracted successfully.")
  ∧ (∃ name, filename f = Some name ∧ Py.truthy name = true)
  ∧ ∃ t,
      (extraction e w f).1 = Returned t
      ∧ upload_world e w f
        = set_upload_store (written e w f)
            (<[uuid4 e := Entry.mk (filename f) (upload_path e f)
                                   (file_extension f) t]> (_upload_store w)).
Proof.
  intros Ho.
  destruct (upload_cases e w f) as [(t & Hb & Ht & Ho' & _) | (_ & [ex Hex] & _)];
    [|congruence].
  rewrite Ho' in Ho. injection Ho as <-. split; [done|].
  split; [apply accepted_has_name, Hb|]. exists t. split; [done|].
  pose proof (extract_returned_world _ _ _ _ Ht) as Hw2.
  fold (extraction e w f) in Hw2.
  destruct (extraction e w f) as [o w2] eqn:Hx. simpl in Ht, Hw2. subst o w2.
  unfold upload_world. by rewrite (upload_extracted _ _ _ _ _ Hb Hx).
Qed.

Lemma upload_status e w f :
  (¬ accepted f →
   status_of HTTP_201_CREATED (upload_outcome e w f) = HTTP_400_BAD_REQUEST)
  ∧ (accepted f → ¬ (bytes_written e f ∧ extraction_succeeds e w f) →
     status_of HTTP_201_CREATED (upload_outcome e w f)
     = HTTP_500_INTERNAL_SERVER_ERROR)
  ∧ (bytes_written e f ∧ extraction_succeeds e w f →
     status_of HTTP_201_CREATED (upload_outcome e w f) = HTTP_201_CREATED).
Proof.
  split; [|split].
  - intros Hna. unfold upload_outcome. by rewrite (upload_rejected _ _ _ Hna).
  - intros Ha Hno. destruct (write_fault e) as [fault|] eqn:Hw.
    { destruct (upload_write_fails e w f fault Ha Hw) as (msg & -> & _). done. }
    assert (bytes_written e f) as Hb by done.
    destruct (extraction e w f) as [[t | ex] w2] eqn:Hx.
    { destruct Hno. split; [done|]. exists t. by rewrite Hx. }
    pose proof (extract_raises_500 (written e w f) (upload_path e f)
                  (file_extension f) ex) as Hex.
    fold (extraction e w f) in Hex. rewrite Hx in Hex.
    specialize (Hex eq_refl). subst ex.
    unfold upload_outcome. rewrite (upload_extraction_fails _ _ _ _ _ Hb Hx).
    by destruct (remove_fault e).
  - intros [Hb [t Ht]].
    destruct (upload_cases e w f) as [(_ & _ & _ & -> & _) | (Hn & _)]; [done|].
    destruct Hn. split; [done | by exists t].
Qed.

(** X10. The three answers of the upload route and when each is given:
    201 exactly when the bytes were written and extraction succeeded,
    400 exactly when the extension is not allowed, 500 in every other
    case; no other status is possible. *)
Theorem upload_status_classified e w f :
  (status_of HTTP_201_CREATED (upload_outcome e w f) = HTTP_201_CREATED
   ↔ bytes_written e f ∧ extraction_succeeds e w f)
  ∧ (status_of HTTP_201_CREATED (upload_outcome e w f) = HTTP_400_BAD_REQUEST
     ↔ ¬ accepted f)
  ∧ (status_of HTTP_201_CREATED (upload_outcome e w f)
     = HTTP_500_INTERNAL_SERVER_ERROR
     ↔ accepted f ∧ ¬ (bytes_written e f ∧ extraction_succeeds e w f))
  ∧ (status_of HTTP_201_CREATED (upload_outcome e w f) = HTTP_201_CREATED
     ∨ status_of HTTP_201_CREATED (upload_outcome e w f) = HTTP_400_BAD_REQUEST
     ∨ status_of HTTP_201_CREATED (upload_outcome e w f)
       = HTTP_500_INTERNAL_SERVER_ERROR).
Proof.
  destruct (upload_status e w f) as (H400 & H500 & H201).
  destruct (decide (accepted f)) as [Ha | Hna].
  - assert (bytes_written e f ∧ extraction_succeeds e w f
            ∨ ¬ (bytes_written e f ∧ extraction_succeeds e w f)) as [Hok | Hno].
    { destruct (write_fault e) as [fault|] eqn:Hw;
        [right; intros [[_ ?] _]; congruence|].
      destruct (extraction e w f).1 as [t | ex] eqn:Hx.
      - left. split; [done|]. by exists t.
      - right. intros [_ [t Ht]]. congruence. }
    + rewrite (H201 Hok). split; [|split; [|split]].
      * split; [by intros _ | done].
      * split; [intros H; discriminate H | intros Hn; by destruct Hn].
      * split; [intros H; discriminate H | intros [_ Hn]; by destruct Hn].
      * by left.
    + rewrite (H500 Ha Hno). split; [|split; [|split]].
      * split; [intros H; discriminate H | intros H; by destruct Hno].
      * split; [intros H; discriminate H | intros Hn; by destruct Hn].
      * split; [by intros _ | done].
      * by right; right.
  - rewrite (H400 Hna). split; [|split; [|split]].
    + split; [intros H; discriminate H | intros [[Ha _] _]; by destruct Hna].
    + split; [by intros _ | done].
    + split; [intros H; discriminate H | intros [Ha _]; by destruct Hna].
    + by right; left.
Qed.

(** X11. An upload leaves a handle open in one case only: a [pdf]
    that reached the disk, that the library opened, and one of whose
    pages raised; then it leaves exactly one.  Text files, rejected
    uploads and failed writes never do. *)
Theorem upload_leaks_only_on_page_error e w f :
  open_handles (upload_world e w f) = open_handles w
  ∨ (file_extension f = "pdf"
     ∧ write_fault e = None
     ∧ (∃ doc err,
          fitz_open (file f) = Ok doc ∧ get_text doc EmptyString = Err err)
     ∧ open_handles (upload_world e w f) = S (open_handles w)).
Proof.
  destruct (decide (accepted f)) as [Ha | Hna];
    [|left; unfold upload_world; by rewrite (upload_rejected _ _ _ Hna)].
  destruct (write_fault e) as [fault|] eqn:Hw.
  { left. unfold upload_world, upload_file.
    rewrite (accepted_decide _ Ha), Hw. simpl. by destruct fault. }
  assert (bytes_written e f) as Hb by done.
  destruct (extraction e w f) as [[t | ex] w2] eqn:Hx.
  - left. pose proof (extract_returned_world (written e w f) (upload_path e f)
                        (file_extension f) t) as Hw2.
    fold (extraction e w f) in Hw2. rewrite Hx in Hw2.
    specialize (Hw2 eq_refl). simpl in Hw2. subst w2.
    unfold upload_world. by rewrite (upload_extracted _ _ _ _ _ Hb Hx).
  - assert (open_handles (upload_world e w f) = open_handles w2) as Hh.
    { unfold upload_world. rewrite (upload_extraction_fails _ _ _ _ _ Hb Hx).
      by destruct (remove_fault e). }
    rewrite Hh.
    destruct (extract_releases_unless_page_raises
                (written e w f) (upload_path e f) (file_extension f))
      as [Hsame | (Hpdf & content & doc & err & Hc & Hd & Hg)].
    + left. fold (extraction e w f) in Hsame. by rewrite Hx in Hsame.
    + right. rewrite written_lookup in Hc. injection Hc as <-.
      split; [done|]. split; [done|]. split; [by exists doc, err|].
      pose proof (extract_pdf_page_error _ _ _ _ _
                    (written_lookup e w f) Hd Hg) as Heq.
      unfold extraction in Hx. rewrite Hpdf, Heq in Hx.
      by injection Hx as _ <-.
Qed.

(** X12. A [txt] upload whose bytes are not valid UTF-8 is written,
    fails to decode, and is answered with the status 500; the store is
    unchanged and the one line printed carries the
    [UnicodeDecodeError]; when the removal works, the file is gone
    again and the detail is the extractor's. *)
Theorem invalid_utf8_txt_upload_fails e w f :
  file_extension f = "txt" →
  Utf8.valid (file f) = false →
  write_fault e = None →
  status_of HTTP_201_CREATED (upload_outcome e w f)
  = HTTP_500_INTERNAL_SERVER_ERROR
  ∧ _upload_store (upload_world e w f) = _upload_store w
  ∧ printed (upload_world e w f)
    = (printed w ++ [(upload_path e f, UnicodeDecodeError)])%list
  ∧ (remove_fault e = None →
     upload_outcome e w f
     = Raised (HTTPException HTTP_500_INTERNAL_SERVER_ERROR
                             "Failed to extract text from file.")
     ∧ storage (upload_world e w f) !! upload_path e f = None).
Proof.
  intros Hext Hv Hw.
  assert (bytes_written e f) as Hb by (split; [by apply accepted_txt | done]).
  assert (extraction e w f
          = (Raised (HTTPException HTTP_500_INTERNAL_SERVER_ERROR
                                   "Failed to extract text from file."),
             print (written e w f) (upload_path e f) UnicodeDecodeError))
    as Hx.
  { unfold extraction. rewrite Hext.
    rewrite (extract_txt _ _ _ (written_lookup e w f)).
    unfold Utf8.decode. by rewrite Hv. }
  unfold upload_outcome, upload_world.
  rewrite (upload_extraction_fails _ _ _ _ _ Hb Hx).
  destruct (remove_fault e) as [msg|]; simpl; repeat split; try done.
  apply lookup_delete_eq.
Qed.

(** X13. What the extension is derived from: for a filename that is
    not empty, [lower] is applied to a part of the name that holds no
    dot and that is either the whole name or all that follows a dot of
    the name. *)
Theorem extension_is_dot_free_tail f name :
  filename f = Some name →
  Py.truthy name = true →
  ∃ tail,
    file_extension f = lower tail
    ∧ Py.contains Py.DOT tail = false
    ∧ (name = tail ∨ ∃ pre, name = pre +:+ String Py.DOT tail).
Proof.
  intros Hf Hn. exists (Py.last_item (Py.split Py.DOT name)).
  split; [unfold file_extension; by rewrite Hf, Hn|].
  apply last_split_decompose.
Qed.

(** *** Sequences of requests *)

Lemma get_leaves_world w doc_id : (get_extracted_text w doc_id).2 = w.
Proof. unfold get_extracted_text. by destruct (_upload_store w !! doc_id). Qed.

Lemma extract_returned_file w file_path file_ext t :
  (extract_text_from_file w file_path file_ext).1 = Returned t →
  is_Some (storage w !! file_path).
Proof.
  unfold extract_text_from_file, extract_body.
  destruct (String.eqb file_ext "pdf").
  - destruct (storage w !! file_path) as [content|]; [by eexists | done].
  - destruct (String.eqb file_ext "txt"); [|done].
    destruct (storage w !! file_path) as [content|]; [by eexists | done].
Qed.

Lemma upload_keeps_other_files e w f id x :
  x ∈ ALLOWED_EXTENSIONS → id ≠ uuid4 e →
  storage (upload_world e w f) !! stored_path id x
  = storage w !! stored_path id x.
Proof.
  intros Hx Hid.
  destruct (upload_storage_cases e w f) as [-> | [Ha _]]; [done|].
  apply upload_storage_frame. intros Heq.
  by apply stored_path_inj in Heq.
Qed.

Lemma upload_keeps_entries e w f k entry :
  _upload_store w !! uuid4 e = None →
  _upload_store w !! k = Some entry →
  _upload_store (upload_world e w f) !! k = Some entry.
Proof.
  intros Hfresh Hk.
  assert (uuid4 e ≠ k) as Hne by (intros <-; congruence).
  destruct (upload_cases e w f) as [(t & _ & _ & _ & Hs & _) | (_ & _ & Hs)];
    rewrite Hs; [by rewrite lookup_insert_ne | done].
Qed.

Lemma upload_consistent e w f :
  consistent w →
  _upload_store w !! uuid4 e = None →
  consistent (upload_world e w f).
Proof.
  intros Hc Hfresh id entry Hl.
  assert (∀ entry', _upload_store w !! id = Some entry' → id ≠ uuid4 e)
    as Hold by (intros entry' H ->; congruence).
  assert (_upload_store w !! id = Some entry →
          Entry.extension entry ∈ ALLOWED_EXTENSIONS
          ∧ Entry.filepath entry = stored_path id (Entry.extension entry)
          ∧ (extract_text_from_file (upload_world e w f) (Entry.filepath entry)
                                    (Entry.extension entry)).1
            = Returned (Entry.text entry)) as Hkeep.
  { intros Hw. destruct (Hc id entry Hw) as (Hx & Hp & Hex).
    split; [done|]. split; [done|]. rewrite <- Hex.
    apply extract_outcome_local. rewrite Hp.
    apply upload_keeps_other_files; [done | by apply Hold with entry]. }
  destruct (upload_cases e w f) as [(t & Hb & Ht & _ & Hs & Hf) | (_ & _ & Hs)];
    rewrite Hs in Hl; [|by apply Hkeep].
  destruct (decide (id = uuid4 e)) as [-> | Hne];
    [|rewrite lookup_insert_ne in Hl; [by apply Hkeep | done]].
  rewrite lookup_insert_eq in Hl. injection Hl as <-. simpl.
  split; [apply Hb|]. split; [done|]. rewrite <- Ht.
  apply extract_outcome_local. by rewrite Hf, written_lookup.
Qed.

(** X14. Starting from a world whose entries are consistent, and
    however uploads and lookups follow one another, as long as each
    upload draws an identifier not in use: every entry of the store has
    an allowed extension, names the path built from its own key, its
    file is on disk, and extracting that file again gives the text
    recorded. *)
Theorem served_entries_stay_backed w rs :
  consistent w →
  fresh_ids w rs →
  consistent (serve w rs)
  ∧ ∀ id entry,
      _upload_store (serve w rs) !! id = Some entry →
      is_Some (storage (serve w rs) !! Entry.filepath entry).
Proof.
  intros Hc Hfresh.
  assert (consistent (serve w rs)) as Hfinal.
  { revert w Hc Hfresh. induction rs as [|r rs IH]; intros w Hc Hfresh; [done|].
    destruct Hfresh as [Hr Hrest]. simpl. apply IH; [|done].
    destruct r as [e f | doc_id]; simpl.
    - by apply upload_consistent.
    - by rewrite get_leaves_world. }
  split; [done|]. intros id entry Hl.
  destruct (Hfinal id entry Hl) as (_ & _ & Hex).
  by apply extract_returned_file in Hex.
Qed.

(** X15. Under the same condition on identifiers, an entry once in the
    store is in it, unchanged, after any further requests, and
    [get_extracted_text] goes on giving the answer it gave. *)
Theorem served_answers_are_stable w rs k entry :
  fresh_ids w rs →
  _upload_store w !! k = Some entry →
  _upload_store (serve w rs) !! k = Some entry
  ∧ (get_extracted_text (serve w rs) k).1 = (get_extracted_text w k).1.
Proof.
  intros Hfresh Hk.
  assert (_upload_store (serve w rs) !! k = Some entry) as Hfinal.
  { revert w Hfresh Hk. induction rs as [|r rs IH]; intros w Hfresh Hk; [done|].
    destruct Hfresh as [Hr Hrest]. simpl. apply IH; [done|].
    destruct r as [e f | doc_id]; simpl.
    - by apply upload_keeps_entries.
    - by rewrite get_leaves_world. }
  split; [done|]. unfold get_extracted_text. by rewrite Hfinal, Hk.
Qed.

(** *** Text that went through the service once *)

Lemma newlines_cons_other c s :
  Ascii.eqb c Py.CR = false →
  universal_newlines (String c s) = String c (universal_newlines s).
Proof. intros H. simpl. by rewrite H. Qed.

Lemma cont_not_cr c : Utf8.cont c = true → Ascii.eqb c Py.CR = false.
Proof.
  intros H. destruct (Ascii.eqb_spec c Py.CR) as [-> | _]; [|done].
  vm_compute in H. discriminate H.
Qed.

Lemma second3_not_cr b0 c : Utf8.second3 b0 c = true → Ascii.eqb c Py.CR = false.
Proof.
  intros H. destruct (Ascii.eqb_spec c Py.CR) as [-> | _]; [|done].
  unfold Utf8.second3 in H.
  destruct (N_of_ascii b0 =? 224)%N; [vm_compute in H; discriminate H|].
  destruct (N_of_ascii b0 =? 237)%N; vm_compute in H; discriminate H.
Qed.

Lemma second4_not_cr b0 c : Utf8.second4 b0 c = true → Ascii.eqb c Py.CR = false.
Proof.
  intros H. destruct (Ascii.eqb_spec c Py.CR) as [-> | _]; [|done].
  unfold Utf8.second4 in H.
  destruct (N_of_ascii b0 =? 240)%N; [vm_compute in H; discriminate H|].
  destruct (N_of_ascii b0 =? 244)%N; vm_compute in H; discriminate H.
Qed.

Lemma valid_ascii_cons c s :
  Py.in_range 0 127 c = true → Utf8.valid (String c s) = Utf8.valid s.
Proof. intros H. simpl. by rewrite H. Qed.

Lemma universal_newlines_valid_bounded n s :
  (String.length s ≤ n)%nat →
  Utf8.valid s = true → Utf8.valid (universal_newlines s) = true.
Proof.
  revert s. induction n as [|n IH]; intros [|b0 s1] Hlen Hv;
    try done; simpl in Hlen; try lia.
  destruct (Ascii.eqb_spec b0 Py.CR) as [-> | Hcr].
  - rewrite valid_ascii_cons in Hv by done.
    change (universal_newlines (String Py.CR s1))
      with (String Py.LF
              match s1 with
              | String c' s'' =>
                  if Ascii.eqb c' Py.LF then universal_newlines s''
                  else universal_newlines s1
              | EmptyString => EmptyString
              end).
    rewrite valid_ascii_cons by done.
    destruct s1 as [|c' s'']; [done|].
    destruct (Ascii.eqb_spec c' Py.LF) as [-> | _].
    + rewrite valid_ascii_cons in Hv by done. apply IH; [simpl in Hlen; lia | done].
    + apply IH; [lia | done].
  - apply Ascii.eqb_neq in Hcr. rewrite (newlines_cons_other _ _ Hcr).
    simpl in Hv. simpl.
    destruct (Py.in_range 0 127 b0); [apply IH; [lia | done]|].
    destruct (Py.in_range 194 223 b0).
    { destruct s1 as [|b1 s2]; [done|].
      apply andb_true_iff in Hv as [Hc Hv].
      rewrite (newlines_cons_other _ _ (cont_not_cr _ Hc)), Hc. simpl.
      apply IH; [simpl in Hlen; lia | done]. }
    destruct (Py.in_range 224 239 b0).
    { destruct s1 as [|b1 [|b2 s3]]; try done.
      apply andb_true_iff in Hv as [Hv Hv3].
      apply andb_true_iff in Hv as [H1 H2].
      rewrite (newlines_cons_other _ _ (second3_not_cr _ _ H1)).
      rewrite (newlines_cons_other _ _ (cont_not_cr _ H2)), H1, H2. simpl.
      apply IH; [simpl in Hlen; lia | done]. }
    destruct (Py.in_range 240 244 b0); [|done].
    destruct s1 as [|b1 [|b2 [|b3 s4]]]; try done.
    apply andb_true_iff in Hv as [Hv Hv4].
    apply andb_true_iff in Hv as [Hv H3].
    apply andb_true_iff in Hv as [H1 H2].
    rewrite (newlines_cons_other _ _ (second4_not_cr _ _ H1)).
    rewrite (newlines_cons_other _ _ (cont_not_cr _ H2)).
    rewrite (newlines_cons_other _ _ (cont_not_cr _ H3)), H1, H2, H3. simpl.
    apply IH; [simpl in Hlen; lia | done].
Qed.

(** X16. Text that the extractor returned for a [txt] file is a fixed
    point of the service: it is valid UTF-8 without carriage return, so
    uploading it as a [txt] file gives back exactly that text. *)
Theorem returned_text_uploads_unchanged w0 file_path t e w f :
  (extract_text_from_file w0 file_path "txt").1 = Returned t →
  file_extension f = "txt" →
  file f = t →
  write_fault e = None →
  Utf8.valid t = true
  ∧ upload_outcome e w f
    = Returned (uuid4 e, "File uploaded and text extracted successfully.")
  ∧ (get_extracted_text (upload_world e w f) (uuid4 e)).1
    = Returned (uuid4 e, filename f, t).
Proof.
  intros Ht Hext Hfile Hw.
  assert (Utf8.valid t = true ∧ Py.contains Py.CR t = false) as [Hv Hcr].
  { revert Ht. unfold extract_text_from_file, extract_body. simpl.
    destruct (storage w0 !! file_path) as [content|]; [|done].
    unfold Utf8.decode. destruct (Utf8.valid content) eqn:Hc; simpl; [|done].
    intros [= <-]. split.
    - by apply universal_newlines_valid_bounded with (String.length content).
    - by apply universal_newlines_bounded with (String.length content). }
  split; [done|].
  assert (bytes_written e f) as Hb by (split; [by apply accepted_txt | done]).
  assert ((extraction e w f).1 = Returned t) as Hx.
  { unfold extraction. rewrite Hext.
    rewrite (extract_txt _ _ _ (written_lookup e w f)).
    unfold Utf8.decode. rewrite Hfile, Hv. simpl.
    by rewrite (universal_newlines_no_cr _ Hcr). }
  by destruct (get_after_upload e w f _ Hb Hx) as (Ho & Hg & _).
Qed.

(** X17. An upload that comes without a filename, or with the empty
    one, is rejected with 400 whatever its content: nothing is written,
    nothing recorded, the stream is not closed. *)
Theorem upload_without_filename_rejected e w f :
  filename f = None ∨ filename f = Some EmptyString →
  upload_file e w f
  = (Raised (HTTPException HTTP_400_BAD_REQUEST (invalid_type_detail e)), w, f).
Proof.
  intros Hf. apply upload_rejected. unfold accepted.
  rewrite (file_extension_absent _ Hf). intros H.
  by destruct (allowed_cases _ H).
Qed.

(** C2, at the path that breaks it.  The bytes are written, extraction
    fails, and [os.remove], called unguarded in the handler of the
    failure, raises: the [raise] that would propagate the extraction
    failure is never reached.  What leaves the handler is the [OSError]
    of the removal, not the extractor's exception, and the file that
    was to be removed is still at its path.  (No entry is inserted, as
    the claim says.) *)
Theorem remove_failure_replaces_extraction_failure e w f msg :
  bytes_written e f →
  ¬ extraction_succeeds e w f →
  remove_fault e = Some msg →
  upload_outcome e w f = Raised (Uncaught (OSError msg))
  ∧ upload_outcome e w f
    ≠ Raised (HTTPException HTTP_500_INTERNAL_SERVER_ERROR
                            "Failed to extract text from file.")
  ∧ storage (upload_world e w f) !! upload_path e f = Some (file f)
  ∧ _upload_store (upload_world e w f) = _upload_store w.
Proof.
  intros Hb Hno Hr.
  pose proof (extract_frame (written e w f) (upload_path e f)
                            (file_extension f)) as [Hfs Hst].
  fold (extraction e w f) in Hfs, Hst.
  destruct (extraction e w f) as [[t | ex] w2] eqn:Hx; simpl in Hfs, Hst.
  { destruct Hno. exists t. by rewrite Hx. }
  unfold upload_outcome, upload_world.
  rewrite (upload_extraction_fails _ _ _ _ _ Hb Hx), Hr. simpl.
  split; [done|]. split; [done|]. split; [|done].
  rewrite Hfs. apply written_lookup.
Qed.

End Service.

(** ** Concrete requests *)

Abbreviation outcome_of := (upload_outcome Py.ascii_lower sample_fitz).
Abbreviation world_of := (upload_world Py.ascii_lower sample_fitz).
Abbreviation ext_of := (file_extension Py.ascii_lower).

Ltac by_computation :=
  unfold accepted; apply (bool_decide_unpack _); vm_compute; exact I.

(** C1, at the input that breaks it.  A filename without any dot is
    taken whole as the extension: the upload named [txt] is not given
    the empty extension and rejected, it is accepted and answered 201. *)
Theorem dotless_filename_taken_as_extension :
  Py.contains Py.DOT "txt" = false
  ∧ ext_of dotless_txt = "txt"
  ∧ ext_of dotless_txt ≠ EmptyString
  ∧ outcome_of sample_env empty_world dotless_txt
    = Returned (sample_id, "File uploaded and text extracted successfully.")
  ∧ status_of HTTP_201_CREATED (outcome_of sample_env empty_world dotless_txt)
    = HTTP_201_CREATED.
Proof. vm_compute. repeat split; done. Qed.

(** The store after [notes.txt], which is recorded, and after a file
    that is not a document, which is removed again. *)
Lemma upload_record_iff_written_and_extracted_witness :
  (is_Some (_upload_store (world_of sample_env empty_world notes_txt) !! sample_id)
   ↔ bytes_written Py.ascii_lower sample_env notes_txt
     ∧ extraction_succeeds Py.ascii_lower sample_fitz sample_env empty_world
                           notes_txt)
  ∧ storage (world_of sample_env empty_world corrupt_pdf)
      !! upload_path Py.ascii_lower sample_env corrupt_pdf = None.
Proof.
  split.
  - apply (upload_record_iff_written_and_extracted
             Py.ascii_lower sample_fitz sample_env empty_world notes_txt).
    reflexivity.
  - apply (upload_record_iff_written_and_extracted
             Py.ascii_lower sample_fitz sample_env empty_world corrupt_pdf).
    + reflexivity.
    + split; [by_computation | reflexivity].
    + intros [t Ht]. vm_compute in Ht. discriminate Ht.
Defined.

(** C3 on [report.docx]. *)
Lemma upload_unsupported_type_rejected_witness :
  outcome_of sample_env empty_world report_docx
  = Raised (HTTPException HTTP_400_BAD_REQUEST
                          (invalid_type_detail sample_env))
  ∧ world_of sample_env empty_world report_docx = empty_world.
Proof.
  assert (¬ accepted Py.ascii_lower report_docx) as H by by_computation.
  pose proof (upload_unsupported_type_rejected
                Py.ascii_lower sample_fitz sample_env empty_world report_docx H)
    as (Ho & _ & _ & _ & Hw).
  exact (conj Ho Hw).
Defined.

(** C4 as stated fails on a file with a DOS line ending: the text that
    comes back has a bare line feed where the upload had CR LF. *)
Lemma crlf_txt_not_returned_verbatim :
  ¬ (∀ lower fitz_open e w f,
       file_extension lower f = "txt" →
       Utf8.valid (file f) = true →
       write_fault e = None →
       (get_extracted_text (upload_world lower fitz_open e w f) (uuid4 e)).1
       = Returned (uuid4 e, filename f, file f)).
Proof.
  intros H.
  specialize (H Py.ascii_lower sample_fitz sample_env empty_world crlf_txt
                eq_refl eq_refl eq_refl).
  vm_compute in H. discriminate H.
Qed.

(** C4 on [notes.txt]. *)
Lemma txt_upload_round_trip_witness :
  (get_extracted_text (world_of sample_env empty_world notes_txt) sample_id).1
  = Returned (sample_id, Some "notes.txt", "hello world").
Proof.
  apply (txt_upload_round_trip
           Py.ascii_lower sample_fitz sample_env empty_world notes_txt);
    reflexivity.
Defined.

(** C5 on a document of two pages. *)
Lemma pdf_upload_concatenates_pages_witness :
  (get_extracted_text (world_of sample_env empty_world two_pages_pdf)
                      sample_id).1
  = Returned (sample_id, Some "paper.PDF", "Hello, world").
Proof.
  apply (pdf_upload_concatenates_pages
           Py.ascii_lower sample_fitz sample_env empty_world two_pages_pdf
           ["Hello, "; "world"]);
    reflexivity.
Defined.

(** C6 on the identifier of an upload that failed. *)
Lemma get_extracted_text_found_or_404_witness :
  (get_extracted_text (world_of sample_env empty_world corrupt_pdf) sample_id).1
  = Raised (HTTPException HTTP_404_NOT_FOUND "Document ID not found.").
Proof.
  apply (get_extracted_text_found_or_404
           Py.ascii_lower sample_fitz sample_env empty_world corrupt_pdf
           sample_id).
  - reflexivity.
  - intros r Hr. vm_compute in Hr. discriminate Hr.
Defined.

(** C7 on an encrypted document. *)
Lemma pdf_page_error_leaves_document_open_witness :
  open_handles
    (extract_text_from_file sample_fitz world_with_encrypted
                            "backend/storage/locked.pdf" "pdf").2 = 1.
Proof.
  apply (pdf_page_error_leaves_document_open
           sample_fitz world_with_encrypted "backend/storage/locked.pdf"
           "%PDF encrypted"
           [Err (ValueError "document closed or encrypted")]
           (ValueError "document closed or encrypted"));
    reflexivity.
Defined.



(** C9 on a store that holds an earlier entry. *)
Lemma stored_records_never_changed_witness :
  _upload_store (world_of sample_env world_with_entry notes_txt) !! "0a"
  = Some earlier_entry.
Proof.
  apply (stored_records_never_changed
           Py.ascii_lower sample_fitz sample_env world_with_entry notes_txt
           "0a" "0a" earlier_entry);
    reflexivity.
Defined.

(** C10 on [report.docx]. *)
Lemma rejected_upload_leaves_stream_open_witness :
  closed (upload_stream Py.ascii_lower sample_fitz sample_env empty_world
                        report_docx) = false.
Proof.
  assert (¬ accepted Py.ascii_lower report_docx) as Hna by by_computation.
  destruct (rejected_upload_leaves_stream_open
              Py.ascii_lower sample_fitz sample_env empty_world report_docx)
    as [Hrej _].
  destruct (Hrej Hna) as [_ Hc]. exact Hc.
Defined.

(** ** The primitives on small inputs *)

Example split_three_parts : Py.split Py.DOT "a.b.PDF" = ["a"; "b"; "PDF"].
Proof. reflexivity. Qed.

Example split_without_dot : Py.split Py.DOT "notes" = ["notes"].
Proof. reflexivity. Qed.

Example split_trailing_dot : Py.split Py.DOT "x." = ["x"; EmptyString].
Proof. reflexivity. Qed.

Example extension_of_archive : ext_of (mkUploadFile (Some "a.tar.TXT") "x" false) = "txt".
Proof. reflexivity. Qed.

Example extension_of_no_name : ext_of (mkUploadFile None "x" false) = EmptyString.
Proof. reflexivity. Qed.

Example utf8_two_byte : Utf8.valid (String "195" (String "169" EmptyString)) = true.
Proof. reflexivity. Qed.

Example utf8_overlong : Utf8.valid (String "192" (String "128" EmptyString)) = false.
Proof. reflexivity. Qed.

Example utf8_surrogate :
  Utf8.valid (String "237" (String "160" (String "128" EmptyString))) = false.
Proof. reflexivity. Qed.

Example utf8_truncated : Utf8.valid (String "226" (String "130" EmptyString)) = false.
Proof. reflexivity. Qed.

Example newlines_translated :
  universal_newlines
    (String "a" (String Py.CR (String Py.LF (String Py.CR "b"))))
  = String "a" (String Py.LF (String Py.LF "b")).
Proof. reflexivity. Qed.

(** The scenarios of the service: a text file comes back as uploaded, a
    corrupt document leaves nothing on disk, an invalid text file
    neither. *)
Example scenario_notes :
  (get_extracted_text (world_of sample_env empty_world notes_txt) sample_id).1
  = Returned (sample_id, Some "notes.txt", "hello world").
Proof. reflexivity. Qed.

Example scenario_corrupt_pdf :
  outcome_of sample_env empty_world corrupt_pdf
  = Raised (HTTPException 500 "Failed to extract text from file.")
  ∧ storage (world_of sample_env empty_world corrupt_pdf) = ∅.
Proof. split; reflexivity. Qed.

Example scenario_encrypted_pdf :
  outcome_of sample_env empty_world encrypted_pdf
  = Raised (HTTPException 500 "Failed to extract text from file.")
  ∧ storage (world_of sample_env empty_world encrypted_pdf) = ∅
  ∧ open_handles (world_of sample_env empty_world encrypted_pdf) = 1.
Proof. repeat split; reflexivity. Qed.

Example scenario_unknown_id :
  (get_extracted_text empty_world "unknown-id").1
  = Raised (HTTPException 404 "Document ID not found.").
Proof. reflexivity. Qed.

(** ** The further properties on concrete requests *)

(** X2 on the extension [docx]. *)
Lemma extract_unsupported_type_witness :
  (extract_text_from_file sample_fitz empty_world "backend/storage/r.docx"
                          "docx").1
  = Raised (HTTPException 500 "Failed to extract text from file.")
  ∧ printed (extract_text_from_file sample_fitz empty_world
                                    "backend/storage/r.docx" "docx").2
    = [("backend/storage/r.docx", ValueError "Unsupported file type: .docx")].
Proof.
  rewrite (extract_unsupported_type sample_fitz empty_world
             "backend/storage/r.docx" "docx");
    [split; reflexivity | discriminate | discriminate].
Defined.

(** X3 on a document whose second page cannot be rendered. *)
Lemma pdf_stops_at_first_failing_page_witness :
  extract_text_from_file paged_fitz world_with_bad_page
                         "backend/storage/scan.pdf" "pdf"
  = (Raised (HTTPException 500 "Failed to extract text from file."),
     print (acquire world_with_bad_page) "backend/storage/scan.pdf"
           (LibraryError "cannot render page")).
Proof.
  apply (pdf_stops_at_first_failing_page
           paged_fitz world_with_bad_page "backend/storage/scan.pdf"
           "%PDF bad page two" ["page one"]
           (LibraryError "cannot render page") [Ok "page three"]);
    reflexivity.
Defined.

(** X4 on a file with a DOS line ending. *)
Lemma txt_text_has_no_carriage_return_witness :
  Py.contains Py.CR (String "a" (String Py.LF "b")) = false.
Proof.
  apply (txt_text_has_no_carriage_return
           sample_fitz world_with_dos_file "backend/storage/dos.txt"
           (String "a" (String Py.LF "b"))).
  reflexivity.
Defined.

(** X5 on a path with no file. *)
Lemma extract_missing_file_witness :
  extract_text_from_file sample_fitz empty_world "backend/storage/gone.txt"
                         "txt"
  = (Raised (HTTPException 500 "Failed to extract text from file."),
     print empty_world "backend/storage/gone.txt" FileNotFoundError).
Proof.
  apply (extract_missing_file sample_fitz empty_world
           "backend/storage/gone.txt" "txt").
  - reflexivity.
  - apply (bool_decide_unpack _). vm_compute. exact I.
Defined.

(** X6 on a disk that fills up after five bytes. *)
Lemma upload_storage_failure_witness :
  outcome_of copy_fault_env empty_world notes_txt
  = Raised (HTTPException 500
      "Could not save file: [Errno 28] No space left on device")
  ∧ storage (world_of copy_fault_env empty_world notes_txt)
      !! upload_path Py.ascii_lower copy_fault_env notes_txt = Some "hello".
Proof.
  assert (accepted Py.ascii_lower notes_txt) as Ha by by_computation.
  destruct (upload_storage_failure
              Py.ascii_lower sample_fitz copy_fault_env empty_world notes_txt
              (CopyFails "hello" "[Errno 28] No space left on device")
              Ha eq_refl) as (Heq & _ & _ & _ & _ & Hpart).
  split.
  - unfold upload_outcome. by rewrite Heq.
  - by apply (Hpart "hello" "[Errno 28] No space left on device").
Defined.

(** X7 on [notes.txt]: the one path that changed. *)
Lemma upload_changes_only_paths_of_its_id_witness :
  "backend/storage/3f2b8c1e-0000-4000-8000-000000000001.txt"
  = upload_path Py.ascii_lower sample_env archive_txt.
Proof.
  apply (upload_changes_only_paths_of_its_id
           Py.ascii_lower sample_fitz sample_env empty_world archive_txt
           "backend/storage/3f2b8c1e-0000-4000-8000-000000000001.txt").
  vm_compute. discriminate.
Defined.

(** X8 on a file that is not a document, in a world with an earlier
    upload. *)
Lemma failed_extraction_restores_storage_witness :
  storage (world_of second_env world_with_entry corrupt_pdf)
  = storage world_with_entry.
Proof.
  apply (failed_extraction_restores_storage
           Py.ascii_lower sample_fitz second_env world_with_entry corrupt_pdf).
  - reflexivity.
  - split; [by_computation | reflexivity].
  - intros [t Ht]. vm_compute in Ht. discriminate Ht.
  - reflexivity.
Defined.

(** X9 on [notes.txt]. *)
Lemma successful_upload_world_witness :
  ∃ name, filename notes_txt = Some name ∧ Py.truthy name = true.
Proof.
  apply (successful_upload_world
           Py.ascii_lower sample_fitz sample_env empty_world notes_txt
           (sample_id, "File uploaded and text extracted successfully.")).
  reflexivity.
Defined.

(** X12 on a text file in Latin-1. *)
Lemma invalid_utf8_txt_upload_fails_witness :
  status_of HTTP_201_CREATED (outcome_of sample_env empty_world latin1_txt)
  = HTTP_500_INTERNAL_SERVER_ERROR.
Proof.
  apply (invalid_utf8_txt_upload_fails
           Py.ascii_lower sample_fitz sample_env empty_world latin1_txt);
    reflexivity.
Defined.

(** X13 on a name with directories and several dots. *)
Lemma extension_is_dot_free_tail_witness :
  ∃ tail,
    ext_of archive_txt = Py.ascii_lower tail
    ∧ Py.contains Py.DOT tail = false
    ∧ ("../etc/notes.v2.TXT" = tail
       ∨ ∃ pre, "../etc/notes.v2.TXT" = pre +:+ String Py.DOT tail).
Proof.
  apply (extension_is_dot_free_tail Py.ascii_lower archive_txt
           "../etc/notes.v2.TXT");
    reflexivity.
Defined.

(** X14 on five requests served from the empty world. *)
Lemma served_entries_stay_backed_witness :
  consistent sample_fitz
             (serve Py.ascii_lower sample_fitz empty_world sample_requests).
Proof.
  apply (served_entries_stay_backed
           Py.ascii_lower sample_fitz empty_world sample_requests).
  - intros id entry H.
    change (_upload_store empty_world) with (∅ : gmap string Entry.t) in H.
    rewrite lookup_empty in H. discriminate H.
  - vm_compute. repeat split.
Defined.

(** X15 on the same requests, for an entry that was there before. *)
Lemma served_answers_are_stable_witness :
  (get_extracted_text
     (serve Py.ascii_lower sample_fitz world_with_entry sample_requests)
     "0a").1
  = Returned ("0a", Some "old.txt", "old text").
Proof.
  destruct (served_answers_are_stable
              Py.ascii_lower sample_fitz world_with_entry sample_requests
              "0a" earlier_entry) as [_ Hg].
  - vm_compute. repeat split.
  - reflexivity.
  - exact Hg.
Defined.

(** X16: the text read from the DOS file, uploaded again. *)
Lemma returned_text_uploads_unchanged_witness :
  (get_extracted_text
     (world_of sample_env empty_world
        (mkUploadFile (Some "unix.txt") (String "a" (String Py.LF "b")) false))
     sample_id).1
  = Returned (sample_id, Some "unix.txt", String "a" (String Py.LF "b")).
Proof.
  apply (returned_text_uploads_unchanged
           Py.ascii_lower sample_fitz world_with_dos_file
           "backend/storage/dos.txt" (String "a" (String Py.LF "b"))
           sample_env empty_world
           (mkUploadFile (Some "unix.txt") (String "a" (String Py.LF "b"))
                         false));
    reflexivity.
Defined.

(** X17 on an upload with no filename. *)
Lemma upload_without_filename_rejected_witness :
  upload_file Py.ascii_lower sample_fitz sample_env empty_world
              (mkUploadFile None "hello world" false)
  = (Raised (HTTPException 400
       "Invalid file type. Only PDF, TXT files are allowed."),
     empty_world, mkUploadFile None "hello world" false).
Proof.
  apply (upload_without_filename_rejected
           Py.ascii_lower sample_fitz sample_env empty_world
           (mkUploadFile None "hello world" false)).
  left. reflexivity.
Defined.

(** C2 on a file that is not a document, when the removal is refused. *)
Lemma remove_failure_replaces_extraction_failure_witness :
  outcome_of remove_fault_env empty_world corrupt_pdf
  = Raised (Uncaught (OSError "[Errno 13] Permission denied"))
  ∧ storage (world_of remove_fault_env empty_world corrupt_pdf)
      !! upload_path Py.ascii_lower remove_fault_env corrupt_pdf
    = Some "not a document".
Proof.
  destruct (remove_failure_replaces_extraction_failure
              Py.ascii_lower sample_fitz remove_fault_env empty_world
              corrupt_pdf "[Errno 13] Permission denied")
    as (Ho & _ & Hf & _).
  - split; [by_computation | reflexivity].
  - intros [t Ht]. vm_compute in Ht. discriminate Ht.
  - reflexivity.
  - exact (conj Ho Hf).
Defined.
